(** * Haptic node / controller protocol: a shallow embedding

    Embeds [haptic/main.py] (the MicroPython node) and
    [haptic/haptic_client.py] (the controller) and states the protocol
    properties of the specification over that embedding. *)

From Stdlib Require Import ZArith QArith Qround Qminmax Lia List.
From stdpp Require Import base option strings gmap.

Local Open Scope Z_scope.
Set Warnings "-register-all".

(** ** Python values as the node sees them *)

Module Py.

(** Floats are idealised: a finite float is the rational it denotes, and
    the three special values are kept apart, because [int()] and the
    comparisons of the source treat them differently. *)
Inductive pyfloat : Type :=
  | FFin (q : Q)
  | FPosInf
  | FNegInf
  | FNaN.

(** What [ujson.loads] can produce. *)
Inductive json : Type :=
  | JNull
  | JBool (b : bool)
  | JInt (z : Z)
  | JFloat (f : pyfloat)
  | JStr (s : string)
  | JList (l : list json)
  | JDict (d : gmap string json).

(** The exceptions the modelled code can raise. *)
Inductive exn : Type :=
  | ValueError
  | TypeError
  | OverflowError
  | AttributeError
  | OSError
  | KeyError.

Definition exn_eqb (a b : exn) : bool :=
  match a, b with
  | ValueError, ValueError | TypeError, TypeError
  | OverflowError, OverflowError | AttributeError, AttributeError
  | OSError, OSError | KeyError, KeyError => true
  | _, _ => false
  end.

(** The float format of the platform, given by the rounding it applies
    to the exact result of an arithmetic operation.  What is known of it
    is what correct rounding guarantees: it is monotone and leaves the
    representable values, the integers of the duty range among them, as
    they are. *)
Record float_format : Type := FloatFormat {
  fround : Q -> Q;
  fround_comp : forall p q : Q, (p == q)%Q -> (fround p == fround q)%Q;
  fround_mono : forall p q : Q, (p <= q)%Q -> (fround p <= fround q)%Q;
  fround_int : forall z : Z, 0 <= z <= 65535 -> (fround (inject_Z z) == inject_Z z)%Q
}.

(** Library functions whose text is not part of the repository: the JSON
    decoder, the string forms of [int()] and [float()], and the float
    arithmetic.  [None] stands for the call raising. *)
Record builtins : Type := Builtins {
  loads : list Byte.byte -> option json;
  int_of_str : string -> option Z;
  float_of_str : string -> option pyfloat;
  fmt : float_format
}.

(** [x < 0] and [x > 1] on floats; every comparison with NaN is false. *)
Definition flt_neg (x : pyfloat) : bool :=
  match x with
  | FFin q => if Qlt_le_dec q 0 then true else false
  | FNegInf => true
  | FPosInf | FNaN => false
  end.

Definition flt_gt1 (x : pyfloat) : bool :=
  match x with
  | FFin q => if Qlt_le_dec 1 q then true else false
  | FPosInf => true
  | FNegInf | FNaN => false
  end.

(** [x * k] for a float [x] and an integer [k]: the exact product,
    rounded to the format. *)
Definition flt_mul (F : float_format) (x : pyfloat) (k : Z) : pyfloat :=
  match x with
  | FFin q => FFin (fround F (q * inject_Z k))
  | other => other
  end.

(** Truncation toward zero, as [int(float)] does. *)
Definition Qtrunc (q : Q) : Z :=
  if Qlt_le_dec q 0 then Qceiling q else Qfloor q.

Definition int_of_float (x : pyfloat) : exn + Z :=
  match x with
  | FFin q => inr (Qtrunc q)
  | FPosInf | FNegInf => inl OverflowError
  | FNaN => inl ValueError
  end.

(** [int(v)] *)
Definition py_int (B : builtins) (v : json) : exn + Z :=
  match v with
  | JInt z => inr z
  | JBool b => inr (if b then 1 else 0)
  | JFloat f => int_of_float f
  | JStr s => match int_of_str B s with Some z => inr z | None => inl ValueError end
  | JNull | JList _ | JDict _ => inl TypeError
  end.

(** [float(v)] *)
Definition py_float (B : builtins) (v : json) : exn + pyfloat :=
  match v with
  | JInt z => inr (FFin (inject_Z z))
  | JBool b => inr (FFin (if b then 1 else 0)%Q)
  | JFloat f => inr f
  | JStr s => match float_of_str B s with Some f => inr f | None => inl ValueError end
  | JNull | JList _ | JDict _ => inl TypeError
  end.

(** Truth value of an object in a condition. *)
Definition truthy (v : json) : bool :=
  match v with
  | JNull => false
  | JBool b => b
  | JInt z => negb (z =? 0)
  | JFloat (FFin q) => negb (Qeq_bool q 0)
  | JFloat _ => true
  | JStr s => match s with EmptyString => false | String _ _ => true end
  | JList l => match l with [] => false | _ :: _ => true end
  | JDict d => match map_to_list d with [] => false | _ :: _ => true end
  end.

(** [v == s] for a string [s]: only an equal string is equal to it. *)
Definition eq_str (v : json) (s : string) : bool :=
  match v with
  | JStr t => bool_decide (t = s)
  | _ => false
  end.

(** [obj.get(key, default)]: only a dict has the method. *)
Definition get (obj : json) (key : string) (dflt : json) : exn + json :=
  match obj with
  | JDict d => inr (default dflt (d !! key))
  | _ => inl AttributeError
  end.

(** Exact arithmetic, as a format. *)
Definition exact_format : float_format :=
  FloatFormat (fun q => q) (fun p q H => H) (fun p q H => H)
              (fun z _ => Qeq_refl (inject_Z z)).

(** Rounding to the nearest multiple of [2^-k], halves upwards: a format
    whose spacing is that of binary64 between [2^(52-k)] and
    [2^(53-k)]. *)
Definition grid_round (k : N) (q : Q) : Q :=
  inject_Z (Qfloor (q * inject_Z (2 ^ Z.of_N k) + (1 # 2))) / inject_Z (2 ^ Z.of_N k).

Lemma grid_scale_pos (k : N) : (0 < inject_Z (2 ^ Z.of_N k))%Q.
Proof.
  change 0%Q with (inject_Z 0). rewrite <- Zlt_Qlt.
  apply Z.pow_pos_nonneg; lia.
Qed.

Lemma grid_round_comp (k : N) (p q : Q) :
  (p == q)%Q -> (grid_round k p == grid_round k q)%Q.
Proof. intros H. unfold grid_round. rewrite H. reflexivity. Qed.

Lemma grid_round_mono (k : N) (p q : Q) :
  (p <= q)%Q -> (grid_round k p <= grid_round k q)%Q.
Proof.
  intros H. unfold grid_round, Qdiv.
  pose proof (grid_scale_pos k) as Hpos.
  apply Qmult_le_compat_r.
  - rewrite <- Zle_Qle. apply Qfloor_resp_le.
    apply Qplus_le_compat; [|apply Qle_refl].
    apply Qmult_le_compat_r; [exact H|apply Qlt_le_weak, Hpos].
  - apply Qinv_le_0_compat. apply Qlt_le_weak, Hpos.
Qed.

Lemma Qfloor_plus_half (a : Z) : Qfloor (inject_Z a + (1 # 2)) = a.
Proof.
  unfold Qfloor, Qplus, inject_Z. cbn [Qnum Qden].
  change (Z.pos (1 * 2)) with 2.
  symmetry. apply (Z.div_unique _ 2 a 1); lia.
Qed.

Lemma grid_round_int (k : N) (z : Z) :
  (grid_round k (inject_Z z) == inject_Z z)%Q.
Proof.
  unfold grid_round. rewrite <- inject_Z_mult, Qfloor_plus_half, inject_Z_mult.
  apply Qdiv_mult_l. intros H.
  pose proof (grid_scale_pos k) as Hpos. rewrite H in Hpos.
  exact (Qlt_irrefl _ Hpos).
Qed.

Definition grid_format (k : N) : float_format :=
  FloatFormat (grid_round k) (grid_round_comp k) (grid_round_mono k)
              (fun z _ => grid_round_int k z).

End Py.

(** ** The node: [haptic/main.py] *)

Module Node.
Import Py.

(** An address as [recvfrom] returns it: host and port. *)
Definition addr : Type := (string * Z)%type.

(** [config.json], read once at start-up, and whether [wifi_connect]
    returned an interface ([sta]). *)
Record config : Type := Config {
  UDP_PORT : Z;
  DEVICE_ID : string;
  TOKEN : string;
  sta : bool
}.

(** [mode = "STA" if sta else "AP"] *)
Definition mode (cfg : config) : string :=
  if sta cfg then "STA"%string else "AP"%string.

(** The mutable state the module owns: the PWM duty register, the buzzer
    pin and the global [active_until_ms]. *)
Record node_state : Type := NodeState {
  duty : Z;
  buzzer : bool;
  active_until_ms : Z
}.

Inductive log_line : Type :=
  | BadJSON (src : addr)
  | BadToken (src : addr).

(** The node together with its surroundings: the millisecond clock, the
    address [netif.ifconfig()] reports, whether the socket can send, the
    datagrams that went out and the console.  An outgoing datagram is
    kept as the object given to [ujson.dumps], with its destination. *)
Record world : Type := World {
  node : node_state;
  now : Z;
  ifconfig_ip : string;
  link_up : bool;
  sent : list (json * addr);
  console : list log_line
}.

Definition with_node (f : node_state -> node_state) (w : world) : world :=
  World (f (node w)) (now w) (ifconfig_ip w) (link_up w) (sent w) (console w).

(** State after the module's top-level statements ran. *)
Definition boot (t0 : Z) (ip : string) (up : bool) : world :=
  World (NodeState 0 false 0) t0 ip up [] [].

(** *** A state and exception monad *)

Inductive result (A : Type) : Type :=
  | Ok (a : A) (w : world)
  | Raise (e : exn) (w : world).
Arguments Ok {A} a w.
Arguments Raise {A} e w.

Definition M (A : Type) : Type := world -> result A.

Definition ret {A} (a : A) : M A := fun w => Ok a w.

Definition bind {A B} (m : M A) (k : A -> M B) : M B :=
  fun w => match m w with
           | Ok a w' => k a w'
           | Raise e w' => Raise e w'
           end.

Notation "x <- m ;; k" := (bind m (fun x => k))
  (at level 100, m at next level, right associativity).
Notation "m ;;; k" := (bind m (fun _ => k))
  (at level 100, right associativity).

Definition lift {A} (r : exn + A) : M A :=
  fun w => match r with inl e => Raise e w | inr a => Ok a w end.

(** [try: body  except <handled>: pass] *)
Definition try_except (handled : exn -> bool) (body : M unit) : M unit :=
  fun w => match body w with
           | Ok a w' => Ok a w'
           | Raise e w' => if handled e then Ok tt w' else Raise e w'
           end.

(** [try: body  finally: fin] *)
Definition try_finally (body fin : M unit) : M unit :=
  fun w => match body w with
           | Ok a w' => fin w'
           | Raise e w' =>
               match fin w' with
               | Ok _ w'' => Raise e w''
               | Raise e' w'' => Raise e' w''
               end
           end.

(** *** Hardware and library primitives *)

Definition pwm_duty_u16 (d : Z) : M unit :=
  fun w => Ok tt (with_node (fun s => NodeState d (buzzer s) (active_until_ms s)) w).

Definition buzzer_value (b : bool) : M unit :=
  fun w => Ok tt (with_node (fun s => NodeState (duty s) b (active_until_ms s)) w).

Definition set_active_until_ms (t : Z) : M unit :=
  fun w => Ok tt (with_node (fun s => NodeState (duty s) (buzzer s) t) w).

Definition get_active_until_ms : M Z :=
  fun w => Ok (active_until_ms (node w)) w.

Definition print (l : log_line) : M unit :=
  fun w => Ok tt (World (node w) (now w) (ifconfig_ip w) (link_up w) (sent w)
                        (console w ++ [l])).

(** [time.sleep_ms(ms)] blocks the caller: the clock moves on. *)
Definition sleep_ms (ms : Z) : M unit :=
  fun w => Ok tt (World (node w) (now w + ms) (ifconfig_ip w) (link_up w) (sent w)
                        (console w)).

(** MicroPython's wrapping millisecond counter. *)
Definition TICKS_PERIOD : Z := 2 ^ 30.

Definition ticks_of (t : Z) : Z := t mod TICKS_PERIOD.

Definition ticks_ms : M Z := fun w => Ok (ticks_of (now w)) w.

Definition ticks_add (ticks delta : Z) : Z := (ticks + delta) mod TICKS_PERIOD.

Definition ticks_diff (t1 t2 : Z) : Z :=
  (t1 - t2 + TICKS_PERIOD / 2) mod TICKS_PERIOD - TICKS_PERIOD / 2.

(** [netif.ifconfig()[0]] *)
Definition ifconfig0 : M string := fun w => Ok (ifconfig_ip w) w.

(** [sock.sendto(data, dst)]: raises [OSError] when the send fails. *)
Definition sendto (data : json) (dst : addr) : M unit :=
  fun w => if link_up w
           then Ok tt (World (node w) (now w) (ifconfig_ip w) (link_up w)
                             (sent w ++ [(data, dst)]) (console w))
           else Raise OSError w.

(** What one call of [sock.recvfrom] meets: it waits [waited] ms and
    then either times out or returns a datagram. *)
Inductive recv_event : Type :=
  | Timeout (waited : N)
  | Datagram (waited : N) (data : list Byte.byte) (src : addr).

Definition waited_of (ev : recv_event) : N :=
  match ev with Timeout n => n | Datagram n _ _ => n end.

Definition recvfrom (bufsize : nat) (ev : recv_event) : M (list Byte.byte * addr) :=
  fun w =>
    let w' := World (node w) (now w + Z.of_N (waited_of ev)) (ifconfig_ip w)
                    (link_up w) (sent w) (console w) in
    match ev with
    | Timeout _ => Raise OSError w'
    | Datagram _ data src => Ok (firstn bufsize data, src) w'
    end.

Section Program.
Context (B : builtins) (cfg : config).

(** *** The functions of [main.py] *)

Definition set_intensity (x : pyfloat) : M unit :=
  let x := if flt_neg x then FFin 0 else x in
  let x := if flt_gt1 x then FFin 1 else x in
  d <- lift (int_of_float (flt_mul (fmt B) x 65535)) ;;
  pwm_duty_u16 d.

Definition beep (ms : Z) : M unit :=
  try_finally (buzzer_value true ;;; sleep_ms ms) (buzzer_value false).

Definition stop_vibe : M unit :=
  set_intensity (FFin 0) ;;;
  set_active_until_ms 0.

Definition start_vibe (duration_ms : Z) (intensity : pyfloat) : M unit :=
  set_intensity intensity ;;;
  t <- ticks_ms ;;
  set_active_until_ms (ticks_add t (Z.max 0 duration_ms)).

(** The integers 0 and 1 that the clamp of [inten] puts in place of an
    out-of-range float are written as the floats they equal, and [netif]
    always has [ifconfig] (both [wifi_connect] and [start_ap] return a
    WLAN interface). *)
Definition handle_packet (payload : list Byte.byte) (src : addr) : M unit :=
  match loads B payload with
  | None => print (BadJSON src)
  | Some msg =>
      tok <- lift (get msg "token" JNull) ;;
      if negb (eq_str tok (TOKEN cfg)) then print (BadToken src) else
      tgt <- lift (get msg "target" JNull) ;;
      if truthy tgt && negb (eq_str tgt (DEVICE_ID cfg)) then ret tt else
      cmd <- lift (get msg "cmd" (JStr EmptyString)) ;;
      if eq_str cmd "buzz" then
        v <- lift (get msg "duration_ms" (JInt 1000)) ;;
        ms <- lift (py_int B v) ;;
        v <- lift (get msg "intensity" (JFloat (FFin 1))) ;;
        inten <- lift (py_float B v) ;;
        let ms := if ms <? 0 then 0 else if 10000 <? ms then 10000 else ms in
        let inten := if flt_neg inten then FFin 0
                     else if flt_gt1 inten then FFin 1 else inten in
        start_vibe ms inten ;;;
        b <- lift (get msg "beep" JNull) ;;
        if truthy b then beep 120 else ret tt
      else if eq_str cmd "stop" then
        stop_vibe
      else if eq_str cmd "ping" then
        ip <- ifconfig0 ;;
        let resp := JDict {[ "id"%string := JStr (DEVICE_ID cfg);
                              "ip"%string := JStr ip;
                              "mode"%string := JStr (mode cfg);
                              "ok"%string := JBool true ]} in
        try_except (fun _ => true) (sendto resp src)
      else ret tt
  end.

(** The two halves of one pass through [while True]. *)
Definition receive (ev : recv_event) : M unit :=
  try_except (fun e => exn_eqb e OSError)
    (r <- recvfrom 512 ev ;; handle_packet (fst r) (snd r)).

Definition deadline_check : M unit :=
  au <- get_active_until_ms ;;
  if au =? 0 then ret tt else
  t <- ticks_ms ;;
  if ticks_diff au t <=? 0 then stop_vibe else ret tt.

Definition loop_body (ev : recv_event) : M unit :=
  receive ev ;;; deadline_check.

(** The loop over the events the socket meets; an exception that leaves
    an iteration ends the program. *)
Fixpoint main_loop (evs : list recv_event) : M unit :=
  match evs with
  | [] => ret tt
  | ev :: rest => loop_body ev ;;; main_loop rest
  end.

End Program.

(** *** Start-up: [load_cfg] and the settings read from its result *)

Section Startup.
Context (B : builtins).

(** The dict [load_cfg] falls back to. *)
Definition FALLBACK_CFG : gmap string json :=
  {[ "ssid"%string := JStr "Deniz";
     "password"%string := JStr "13711353";
     "udp_port"%string := JInt 5005;
     "device_id"%string := JStr "haptic01";
     "token"%string := JStr "change-me" ]}.

(** [load_cfg]: [file] is the content of [config.json], [None] when it
    cannot be opened; any failure gives the fallback. *)
Definition load_cfg (file : option (list Byte.byte)) : json :=
  match file with
  | None => JDict FALLBACK_CFG
  | Some content =>
      match loads B content with
      | Some v => v
      | None => JDict FALLBACK_CFG
      end
  end.

(** [UDP_PORT], [DEVICE_ID] and [TOKEN] as the module computes them
    from [cfg]; an exception here ends the program before the loop. *)
Definition settings (cfg : json) : exn + (Z * json * json) :=
  match get cfg "udp_port" (JInt 5005) with
  | inl e => inl e
  | inr v =>
      match py_int B v with
      | inl e => inl e
      | inr port =>
          match get cfg "device_id" (JStr "haptic01") with
          | inl e => inl e
          | inr dev =>
              match get cfg "token" (JStr "change-me") with
              | inl e => inl e
              | inr tok => inr (port, dev, tok)
              end
          end
      end
  end.

(** [cfg[key]]: a dict without the key raises [KeyError], anything else
    that is indexed by a string raises [TypeError]. *)
Definition subscript (cfg : json) (key : string) : exn + json :=
  match cfg with
  | JDict d => match d !! key with Some v => inr v | None => inl KeyError end
  | _ => inl TypeError
  end.

(** Everything the module reads from [cfg] on its way to the loop: the
    three settings, then [cfg["ssid"]] and [cfg["password"]] for
    [wifi_connect]. *)
Definition startup_reads (cfg : json) : exn + (Z * json * json * json * json) :=
  match settings cfg with
  | inl e => inl e
  | inr (port, dev, tok) =>
      match subscript cfg "ssid" with
      | inl e => inl e
      | inr ssid =>
          match subscript cfg "password" with
          | inl e => inl e
          | inr password => inr (port, dev, tok, ssid, password)
          end
      end
  end.

End Startup.

End Node.

(** ** The controller: [haptic/haptic_client.py] *)

Module Client.
Import Py.

(** An IPv4 address is its packed 32-bit integer, as the [ipaddress]
    module keeps it. *)
Definition ipv4 (a b c d : Z) : Z :=
  Z.lor (Z.shiftl a 24) (Z.lor (Z.shiftl b 16) (Z.lor (Z.shiftl c 8) d)).

Definition ALL_ONES : Z := 2 ^ 32 - 1.

Definition DEFAULT_IP : Z := ipv4 192 168 86 239.
Definition DEFAULT_MASK : Z := ipv4 255 255 255 0.
Definition DEFAULT_PORT : Z := 5005.

(** The text after the slash of [ip/mask]: a dotted quad or a prefix
    length. *)
Inductive mask_arg : Type :=
  | MaskQuad (m : Z)
  | MaskPrefix (p : Z).

(** [int.bit_length] on a non-negative integer. *)
Definition bit_length (x : Z) : Z := if x =? 0 then 0 else Z.log2 x + 1.

(** [ipaddress._count_righthand_zero_bits] *)
Definition count_righthand_zero_bits (number bits : Z) : Z :=
  if number =? 0 then bits
  else Z.min bits (bit_length (Z.land (Z.lnot number) (number - 1))).

(** [_prefix_from_ip_int]; [None] when it raises [ValueError]. *)
Definition prefix_from_ip_int (ip_int : Z) : option Z :=
  let trailing_zeroes := count_righthand_zero_bits ip_int 32 in
  let prefixlen := 32 - trailing_zeroes in
  let leading_ones := Z.shiftr ip_int trailing_zeroes in
  let all_ones := Z.shiftl 1 prefixlen - 1 in
  if leading_ones =? all_ones then Some prefixlen else None.

(** [_prefix_from_ip_string]: a netmask, or else a hostmask. *)
Definition prefix_from_ip_string (ip_int : Z) : option Z :=
  match prefix_from_ip_int ip_int with
  | Some p => Some p
  | None => prefix_from_ip_int (Z.lxor ip_int ALL_ONES)
  end.

(** [_make_netmask], giving the prefix length. *)
Definition make_netmask (arg : mask_arg) : option Z :=
  match arg with
  | MaskPrefix p => if (0 <=? p) && (p <=? 32) then Some p else None
  | MaskQuad m => if (0 <=? m) && (m <=? ALL_ONES) then prefix_from_ip_string m else None
  end.

(** [_ip_int_from_prefix] *)
Definition ip_int_from_prefix (prefixlen : Z) : Z :=
  Z.lxor ALL_ONES (Z.shiftr ALL_ONES prefixlen).

(** [calc_broadcast]: [IPv4Network(ip/mask, strict=False).broadcast_address].
    An address or mask the library refuses raises [ValueError]. *)
Definition calc_broadcast (ip : Z) (mask : mask_arg) : exn + Z :=
  if negb ((0 <=? ip) && (ip <=? ALL_ONES)) then inl ValueError else
  match make_netmask mask with
  | None => inl ValueError
  | Some prefixlen =>
      let netmask := ip_int_from_prefix prefixlen in
      let network_address := Z.land ip netmask in
      let hostmask := Z.lxor netmask ALL_ONES in
      inr (Z.lor network_address hostmask)
  end.

(** The formula as the specification words it: the address AND NOT the
    mask, then OR the mask. *)
Definition spec_broadcast (ip mask : Z) : Z :=
  Z.lor (Z.land ip (Z.lxor mask ALL_ONES)) mask.

(** What one [s.recvfrom(2048)] of the collection loop meets. *)
Inductive recv_outcome : Type :=
  | RTimeout
  | RReply (resp : string) (from : string * Z).

(** The [while time.time() - t0 < wait_s] loop.  Each entry of [trace]
    is the clock read by one loop test and what [recvfrom] does if the
    body is entered.  [None]: the trace ends while the loop still runs. *)
Fixpoint collect (t0 wait_s : Q) (trace : list (Q * recv_outcome))
    (found : gmap string string) : option (gmap string string) :=
  match trace with
  | [] => None
  | (t, r) :: rest =>
      if Qlt_le_dec (t - t0) wait_s then
        collect t0 wait_s rest
          match r with
          | RReply resp from => <[ fst from := resp ]> found
          | RTimeout => found
          end
      else Some found
  end.

(** [discover].  After the broadcast address is computed,
    [make_sock(broadcast=True, timeout=wait_s)] sets the wait as the
    socket timeout, which [settimeout] refuses with [ValueError] when it
    is negative; the send itself is taken to succeed, and the broadcast
    [ping] has no part in what is returned. *)
Definition discover (mask : mask_arg) (ip : Z) (wait_s : Q) (t0 : Q)
    (trace : list (Q * recv_outcome)) : option (exn + Z * gmap string string) :=
  match calc_broadcast ip mask with
  | inl e => Some (inl e)
  | inr bcast =>
      if Qlt_le_dec wait_s 0 then Some (inl ValueError) else
      match collect t0 wait_s trace ∅ with
      | None => None
      | Some found => Some (inr (bcast, found))
      end
  end.

(** The replies the loop takes in: those met before the first loop test
    that fails. *)
Fixpoint window (t0 wait_s : Q) (trace : list (Q * recv_outcome)) : list recv_outcome :=
  match trace with
  | [] => []
  | (t, r) :: rest =>
      if Qlt_le_dec (t - t0) wait_s then r :: window t0 wait_s rest else []
  end.

(** The last reply of address [a] in a sequence of outcomes. *)
Fixpoint last_reply (a : string) (l : list recv_outcome) : option string :=
  match l with
  | [] => None
  | r :: rest =>
      match last_reply a rest with
      | Some x => Some x
      | None =>
          match r with
          | RReply resp from => if decide (fst from = a) then Some resp else None
          | RTimeout => None
          end
      end
  end.

(** *** The command line: [send_json] and [main] *)

Definition DEFAULT_TOKEN : string := "change-me".

(** A datagram handed to the socket: the object given to [json.dumps],
    the destination, and whether the socket was opened for broadcast. *)
Definition out_datagram : Type := (json * (Z * Z) * bool)%type.

(** [send_json]: [rx] is what the one [recvfrom] meets when a reply is
    waited for.  Gives the datagram sent and the value returned. *)
Definition send_json (ip port : Z) (payload : json) (wait_reply broadcast : bool)
    (rx : recv_outcome) : out_datagram * option (string * string) :=
  ((payload, (ip, port), broadcast),
   if wait_reply then
     match rx with
     | RReply resp from => Some (fst from, resp)
     | RTimeout => None
     end
   else None).

(** The parsed command line. *)
Inductive subcommand : Type :=
  | SubPing
  | SubBuzz (ms : Z) (intensity : pyfloat) (beep : bool)
  | SubStop
  | SubBroadcastPing (wait : Q)
  | SubBroadcastBuzz (ms : Z) (intensity : pyfloat) (beep : bool).

Record args : Type := Args {
  arg_ip : Z;
  arg_mask : mask_arg;
  arg_port : Z;
  arg_token : string;
  arg_target : option string;
  arg_cmd : subcommand
}.

(** [if args.target: payload["target"] = args.target] *)
Definition add_target (target : option string) (payload : gmap string json)
    : gmap string json :=
  match target with
  | Some (String a s) => <[ "target"%string := JStr (String a s) ]> payload
  | Some EmptyString | None => payload
  end.

(** [if args.beep: payload["beep"] = True] *)
Definition add_beep (beep : bool) (payload : gmap string json) : gmap string json :=
  if beep then <[ "beep"%string := JBool true ]> payload else payload.

Definition buzz_payload (ms : Z) (intensity : pyfloat) (token : string)
    : gmap string json :=
  {[ "cmd"%string := JStr "buzz";
     "duration_ms"%string := JInt ms;
     "intensity"%string := JFloat intensity;
     "token"%string := JStr token ]}.

(** The message [discover] broadcasts. *)
Definition discover_ping (token : string) : gmap string json :=
  {[ "cmd"%string := JStr "ping"; "token"%string := JStr token ]}.

(** What [main] prints. *)
Inductive line : Type :=
  | LReply (ip txt : string)
  | LNoReply
  | LSentBuzz (ip port ms : Z) (intensity : pyfloat) (beep : bool)
  | LSentStop (ip port : Z)
  | LNoBroadcastReplies (bcast port : Z)
  | LBroadcastReplies (bcast port : Z) (found : gmap string string)
  | LBroadcastBuzz (bcast port ms : Z) (intensity : pyfloat) (beep : bool).

(** One run of the program: the datagrams sent, the output and the exit
    status. *)
Record run : Type := Run {
  sends : list out_datagram;
  output : list line;
  status : Z
}.

(** [main] on parsed arguments.  [rx] is what a unicast [ping] receives,
    [t0] and [trace] drive the collection loop of [broadcast-ping];
    [None]: the trace ends while that loop still runs. *)
Definition main (a : args) (rx : recv_outcome) (t0 : Q) (trace : list (Q * recv_outcome))
    : option (exn + run) :=
  match arg_cmd a with
  | SubPing =>
      let payload :=
        add_target (arg_target a)
          {[ "cmd"%string := JStr "ping"; "token"%string := JStr (arg_token a) ]} in
      let '(d, r) := send_json (arg_ip a) (arg_port a) (JDict payload) true false rx in
      Some (inr (Run [d]
                     match r with
                     | Some (ip, txt) => [LReply ip txt]
                     | None => [LNoReply]
                     end 0))
  | SubBuzz ms intensity beep =>
      let payload :=
        add_target (arg_target a)
          (add_beep beep (buzz_payload ms intensity (arg_token a))) in
      let '(d, _) := send_json (arg_ip a) (arg_port a) (JDict payload) false false rx in
      Some (inr (Run [d] [LSentBuzz (arg_ip a) (arg_port a) ms intensity beep] 0))
  | SubStop =>
      let payload :=
        add_target (arg_target a)
          {[ "cmd"%string := JStr "stop"; "token"%string := JStr (arg_token a) ]} in
      let '(d, _) := send_json (arg_ip a) (arg_port a) (JDict payload) false false rx in
      Some (inr (Run [d] [LSentStop (arg_ip a) (arg_port a)] 0))
  | SubBroadcastPing wait =>
      match discover (arg_mask a) (arg_ip a) wait t0 trace with
      | None => None
      | Some (inl e) => Some (inl e)
      | Some (inr (bcast, found)) =>
          let d := (JDict (discover_ping (arg_token a)), (bcast, arg_port a), true) in
          if decide (map_to_list found = [])
          then Some (inr (Run [d] [LNoBroadcastReplies bcast (arg_port a)] 1))
          else Some (inr (Run [d] [LBroadcastReplies bcast (arg_port a) found] 0))
      end
  | SubBroadcastBuzz ms intensity beep =>
      match calc_broadcast (arg_ip a) (arg_mask a) with
      | inl e => Some (inl e)
      | inr bcast =>
          let payload := add_beep beep (buzz_payload ms intensity (arg_token a)) in
          let '(d, _) := send_json bcast (arg_port a) (JDict payload) false true rx in
          Some (inr (Run [d] [LBroadcastBuzz bcast (arg_port a) ms intensity beep] 0))
      end
  end.

End Client.

(** ** What the claims talk about *)

Module Spec.
Import Py Node Client.

(** The message carries the node's token and passes the target filter as
    the specification describes it: no target, or this node's id. *)
Definition authorised (cfg : config) (m : gmap string json) : Prop :=
  m !! "token"%string = Some (JStr (TOKEN cfg)) ∧
  (m !! "target"%string = None ∨ m !! "target"%string = Some (JStr (DEVICE_ID cfg))).

(** [payload] decodes to an authorised [buzz] whose numeric fields
    convert to [ms] and [x]; [b] is the truth value of its [beep]. *)
Definition buzz_command (B : builtins) (cfg : config) (payload : list Byte.byte)
    (ms : Z) (x : pyfloat) (b : bool) : Prop :=
  ∃ m, loads B payload = Some (JDict m) ∧ authorised cfg m ∧
       m !! "cmd"%string = Some (JStr "buzz") ∧
       py_int B (default (JInt 1000) (m !! "duration_ms"%string)) = inr ms ∧
       py_float B (default (JFloat (FFin 1)) (m !! "intensity"%string)) = inr x ∧
       x ≠ FNaN ∧
       truthy (default JNull (m !! "beep"%string)) = b.

(** [duration_ms] clamped to [0, 10000]. *)
Definition clamp_ms (ms : Z) : Z := Z.max 0 (Z.min 10000 ms).

(** [intensity] clamped to [0.0, 1.0]. *)
Definition clamp_intensity (x : pyfloat) : Q :=
  match x with
  | FFin q => Qmax 0 (Qmin 1 q)
  | FPosInf => 1
  | FNegInf | FNaN => 0
  end.

(** The duty register value of an intensity in [0, 1]: [int(r * 65535)]
    in the float arithmetic of the platform. *)
Definition duty_of (B : builtins) (r : Q) : Z :=
  Qtrunc (fround (fmt B) (r * inject_Z 65535)).

(** [payload] decodes to an authorised [ping]. *)
Definition ping_command (B : builtins) (cfg : config) (payload : list Byte.byte) : Prop :=
  ∃ m, loads B payload = Some (JDict m) ∧ authorised cfg m ∧
       m !! "cmd"%string = Some (JStr "ping").

(** The deadline is strictly ahead of the clock, as [ticks_diff] sees it. *)
Definition in_future (w : world) : Prop :=
  0 < ticks_diff (active_until_ms (node w)) (ticks_of (now w)).

(** The invariant as the specification words it. *)
Definition output_iff_deadline (w : world) : Prop :=
  duty (node w) ≠ 0 ↔ (active_until_ms (node w) ≠ 0 ∧ in_future w).

(** Its forward half. *)
Definition output_needs_deadline (w : world) : Prop :=
  duty (node w) ≠ 0 → active_until_ms (node w) ≠ 0 ∧ in_future w.

(** The output may be on only while the deadline variable is set. *)
Definition output_needs_set_deadline (w : world) : Prop :=
  duty (node w) ≠ 0 → active_until_ms (node w) ≠ 0.

(** Somewhere in the run [evs] from [w] an iteration handled a datagram
    at a tick from which a clamped duration wraps to the deadline 0, and
    ended with the output on and [active_until_ms = 0]. *)
Definition zero_deadline_stored (B : builtins) (cfg : config)
    (evs : list recv_event) (w : world) : Prop :=
  ∃ pre ev post w1 w2 ms,
    evs = pre ++ ev :: post ∧
    main_loop B cfg pre w = Ok tt w1 ∧
    loop_body B cfg ev w1 = Ok tt w2 ∧
    duty (node w2) ≠ 0 ∧ active_until_ms (node w2) = 0 ∧
    0 <= ms <= 10000 ∧
    ticks_add (ticks_of (now w1 + Z.of_N (waited_of ev))) ms = 0.

(** The world an accepted [buzz] leaves behind. *)
Definition buzzed (B : builtins) (ms : Z) (x : pyfloat) (b : bool) (w : world) : world :=
  World (NodeState (duty_of B (clamp_intensity x))
                   (if b then false else buzzer (node w))
                   (ticks_add (ticks_of (now w)) (clamp_ms ms)))
        (if b then now w + 120 else now w)
        (ifconfig_ip w) (link_up w) (sent w) (console w).

(** The reply of this node to a [ping]. *)
Definition reply (cfg : config) (w : world) : gmap string json :=
  {[ "id"%string := JStr (DEVICE_ID cfg);
     "ip"%string := JStr (ifconfig_ip w);
     "mode"%string := JStr (mode cfg);
     "ok"%string := JBool true ]}.

(** The world an accepted [ping] leaves behind. *)
Definition pinged (cfg : config) (src : addr) (w : world) : world :=
  if link_up w
  then World (node w) (now w) (ifconfig_ip w) (link_up w)
             (sent w ++ [(JDict (reply cfg w), src)]) (console w)
  else w.

(** The dotted-quad netmasks: the masks of the 33 prefix lengths. *)
Definition is_netmask (mask : Z) : Prop :=
  ∃ p, 0 <= p <= 32 ∧ mask = ip_int_from_prefix p.

(** [payload] decodes to an authorised [stop]. *)
Definition stop_command (B : builtins) (cfg : config) (payload : list Byte.byte) : Prop :=
  ∃ m, loads B payload = Some (JDict m) ∧ authorised cfg m ∧
       m !! "cmd"%string = Some (JStr "stop").

(** The node after [stop_vibe]. *)
Definition stopped (w : world) : world :=
  with_node (fun s => NodeState 0 (buzzer s) 0) w.

(** The world a computation ends in, returning or raising. *)
Definition final_world {A : Type} (r : result A) : world :=
  match r with Ok _ w => w | Raise _ w => w end.

(** The senders of the datagrams among the events. *)
Fixpoint sources (evs : list recv_event) : list addr :=
  match evs with
  | [] => []
  | Timeout _ :: rest => sources rest
  | Datagram _ _ src :: rest => src :: sources rest
  end.

(** The world [k] ms later, nothing else changed. *)
Definition advance (k : Z) (w : world) : world :=
  World (node w) (now w + k) (ifconfig_ip w) (link_up w) (sent w) (console w).

(** The time a sequence of receive waits takes. *)
Definition total_wait (ns : list N) : Z :=
  fold_right (fun k acc => Z.of_N k + acc) 0 ns.

(** The payloads on which the handler raises: a JSON value that is not
    an object, or an authorised [buzz] with a [duration_ms] or an
    [intensity] that does not convert, or with a NaN intensity. *)
Definition crashing (B : builtins) (cfg : config) (payload : list Byte.byte) : Prop :=
  match loads B payload with
  | None => False
  | Some (JDict m) =>
      eq_str (default JNull (m !! "token"%string)) (TOKEN cfg) = true ∧
      truthy (default JNull (m !! "target"%string))
        && negb (eq_str (default JNull (m !! "target"%string)) (DEVICE_ID cfg)) = false ∧
      m !! "cmd"%string = Some (JStr "buzz") ∧
      ((∃ e, py_int B (default (JInt 1000) (m !! "duration_ms"%string)) = inl e) ∨
       (∃ e, py_float B (default (JFloat (FFin 1)) (m !! "intensity"%string)) = inl e) ∨
       py_float B (default (JFloat (FFin 1)) (m !! "intensity"%string)) = inr FNaN)
  | Some _ => True
  end.

End Spec.


(** ** Concrete inputs *)

Module Fixtures.
Import Py Node Client.

(** A stand-in for the decoder: the first byte of a payload picks the
    message out of a table. *)
Definition table_loads (msgs : list json) (payload : list Byte.byte) : option json :=
  match payload with
  | [] => None
  | b :: _ => nth_error msgs (N.to_nat (Byte.to_N b))
  end.

Definition table_builtins (msgs : list json) : builtins :=
  Builtins (table_loads msgs) (fun _ => None) (fun _ => None) exact_format.

Definition cfg0 : config := Config 5005 "haptic01" "change-me" true.

Definition peer : addr := ("192.168.86.20"%string, 40000).

Definition w0 : world := boot 5 "192.168.86.239" true.

(** buzz, 50000 ms, intensity 1.7 *)
Definition m_buzz : gmap string json :=
  {[ "cmd"%string := JStr "buzz"; "token"%string := JStr "change-me";
     "duration_ms"%string := JInt 50000;
     "intensity"%string := JFloat (FFin (17 # 10)) ]}.

(** buzz, default duration, intensity 0 *)
Definition m_buzz_zero : gmap string json :=
  {[ "cmd"%string := JStr "buzz"; "token"%string := JStr "change-me";
     "intensity"%string := JFloat (FFin 0) ]}.

(** buzz, -5 ms, intensity -0.3, with beep *)
Definition m_buzz_beep : gmap string json :=
  {[ "cmd"%string := JStr "buzz"; "token"%string := JStr "change-me";
     "duration_ms"%string := JInt (-5);
     "intensity"%string := JFloat (FFin (-3 # 10));
     "beep"%string := JBool true ]}.

(** buzz whose duration is null *)
Definition m_buzz_null : gmap string json :=
  {[ "cmd"%string := JStr "buzz"; "token"%string := JStr "change-me";
     "duration_ms"%string := JNull ]}.

Definition m_ping : gmap string json :=
  {[ "cmd"%string := JStr "ping"; "token"%string := JStr "change-me" ]}.

Definition m_ping_wrong_token : gmap string json :=
  {[ "cmd"%string := JStr "ping"; "token"%string := JStr "guess" ]}.

Definition m_ping_empty_target : gmap string json :=
  {[ "cmd"%string := JStr "ping"; "token"%string := JStr "change-me";
     "target"%string := JStr EmptyString ]}.

Definition msgs0 : list json :=
  [ JDict m_buzz; JDict m_buzz_zero; JDict m_buzz_beep; JDict m_buzz_null;
    JDict m_ping; JDict m_ping_wrong_token; JDict m_ping_empty_target;
    JDict (delete "target"%string m_ping_empty_target); JList [] ].

Definition B0 : builtins := table_builtins msgs0.

Definition p_buzz : list Byte.byte := [Byte.x00].
Definition p_buzz_zero : list Byte.byte := [Byte.x01].
Definition p_buzz_beep : list Byte.byte := [Byte.x02].
Definition p_buzz_null : list Byte.byte := [Byte.x03].
Definition p_ping : list Byte.byte := [Byte.x04].
Definition p_ping_wrong_token : list Byte.byte := [Byte.x05].
Definition p_ping_empty_target : list Byte.byte := [Byte.x06].
Definition p_ping_no_target : list Byte.byte := [Byte.x07].
Definition p_list : list Byte.byte := [Byte.x08].

(** A node whose clock stands 10 s before the tick counter wraps. *)
Definition w_wrap : world := boot (2 ^ 30 - 10000) "192.168.86.239" true.

(** A discovery in which 10.0.0.1 answers twice and 10.0.0.2 once,
    with a wait of 1.5 s from time 0. *)
Definition trace0 : list (Q * recv_outcome) :=
  [ ((1 # 10)%Q, RReply "first" ("10.0.0.1"%string, 5005));
    ((2 # 10)%Q, RTimeout);
    ((3 # 10)%Q, RReply "other" ("10.0.0.2"%string, 5005));
    ((4 # 10)%Q, RReply "second" ("10.0.0.1"%string, 5005));
    ((16 # 10)%Q, RTimeout) ].

(** Command lines of the controller and what they put on the wire. *)
Definition a_buzz : args :=
  Args DEFAULT_IP (MaskQuad DEFAULT_MASK) DEFAULT_PORT DEFAULT_TOKEN None
       (SubBuzz 2000 (FFin (8 # 10)) true).
Definition wire_buzz : gmap string json :=
  add_target None (add_beep true (buzz_payload 2000 (FFin (8 # 10)) DEFAULT_TOKEN)).

Definition a_broadcast_buzz : args :=
  Args DEFAULT_IP (MaskQuad DEFAULT_MASK) DEFAULT_PORT DEFAULT_TOKEN (Some "RHIP"%string)
       (SubBroadcastBuzz 1200 (FFin (7 # 10)) false).
Definition wire_broadcast_buzz : gmap string json :=
  add_beep false (buzz_payload 1200 (FFin (7 # 10)) DEFAULT_TOKEN).

Definition a_ping : args :=
  Args DEFAULT_IP (MaskQuad DEFAULT_MASK) DEFAULT_PORT DEFAULT_TOKEN
       (Some "haptic01"%string) SubPing.
Definition wire_ping : gmap string json :=
  add_target (Some "haptic01"%string)
    {[ "cmd"%string := JStr "ping"; "token"%string := JStr DEFAULT_TOKEN ]}.

Definition a_stop : args :=
  Args DEFAULT_IP (MaskQuad DEFAULT_MASK) DEFAULT_PORT DEFAULT_TOKEN None SubStop.
Definition wire_stop : gmap string json :=
  {[ "cmd"%string := JStr "stop"; "token"%string := JStr DEFAULT_TOKEN ]}.

Definition a_stop_other : args :=
  Args DEFAULT_IP (MaskQuad DEFAULT_MASK) DEFAULT_PORT DEFAULT_TOKEN
       (Some "RHIP"%string) SubStop.
Definition wire_stop_other : gmap string json :=
  add_target (Some "RHIP"%string)
    {[ "cmd"%string := JStr "stop"; "token"%string := JStr DEFAULT_TOKEN ]}.

Definition a_discover : args :=
  Args DEFAULT_IP (MaskQuad DEFAULT_MASK) DEFAULT_PORT DEFAULT_TOKEN None
       (SubBroadcastPing (3 # 2)).

(** An authorised message with a command the node does not know. *)
Definition m_dance : gmap string json :=
  {[ "cmd"%string := JStr "dance"; "token"%string := JStr "change-me" ]}.

Definition msgs1 : list json :=
  [ JDict wire_buzz; JDict wire_broadcast_buzz; JDict wire_ping; JDict wire_stop;
    JDict wire_stop_other; JDict m_dance; JStr "hello" ].

Definition B1 : builtins := table_builtins msgs1.

Definition q_buzz : list Byte.byte := [Byte.x00].
Definition q_broadcast_buzz : list Byte.byte := [Byte.x01].
Definition q_ping : list Byte.byte := [Byte.x02].
Definition q_stop : list Byte.byte := [Byte.x03].
Definition q_stop_other : list Byte.byte := [Byte.x04].
Definition q_dance : list Byte.byte := [Byte.x05].
Definition q_hello : list Byte.byte := [Byte.x06].

(** Messages that probe the handler: a [buzz] with an empty target, and
    [buzz]es whose duration is infinite and fractional. *)
Definition m_buzz_empty_target : gmap string json :=
  {[ "cmd"%string := JStr "buzz"; "token"%string := JStr "change-me";
     "target"%string := JStr EmptyString;
     "duration_ms"%string := JInt 300;
     "intensity"%string := JFloat (FFin (1 # 2));
     "beep"%string := JBool true ]}.

Definition m_buzz_inf : gmap string json :=
  {[ "cmd"%string := JStr "buzz"; "token"%string := JStr "change-me";
     "duration_ms"%string := JFloat FPosInf ]}.

Definition m_buzz_frac : gmap string json :=
  {[ "cmd"%string := JStr "buzz"; "token"%string := JStr "change-me";
     "duration_ms"%string := JFloat (FFin (5 # 2)) ]}.

(** Contents of [config.json]: one with the Wi-Fi keys only, one with
    the id only. *)
Definition cfg_wifi_only : gmap string json :=
  {[ "ssid"%string := JStr "Lab"; "password"%string := JStr "secret" ]}.

Definition cfg_id_only : gmap string json :=
  {[ "device_id"%string := JStr "RHIP" ]}.

Definition msgs2 : list json :=
  [ JDict m_buzz_empty_target; JDict (delete "target"%string m_buzz_empty_target);
    JDict m_buzz_inf; JDict m_buzz_frac; JDict cfg_wifi_only; JDict cfg_id_only ].

Definition B2 : builtins := table_builtins msgs2.

Definition r_buzz_empty_target : list Byte.byte := [Byte.x00].
Definition r_buzz_no_target : list Byte.byte := [Byte.x01].
Definition r_buzz_inf : list Byte.byte := [Byte.x02].
Definition r_buzz_frac : list Byte.byte := [Byte.x03].
Definition r_cfg_wifi_only : list Byte.byte := [Byte.x04].
Definition r_cfg_id_only : list Byte.byte := [Byte.x05].

(** Builtins whose float arithmetic rounds to the nearest multiple of
    [2^-k]. *)
Definition rounding_builtins (k : N) : builtins :=
  Builtins (table_loads []) (fun _ => None) (fun _ => None) (grid_format k).

End Fixtures.
Import Py Node Client Spec.

(** ** Properties of the node *)

Section NodeFacts.
Context (B : builtins) (cfg : config).

Lemma eq_str_true v s : eq_str v s = true ↔ v = JStr s.
Proof.
  destruct v; simpl; try (split; [discriminate|discriminate]).
  rewrite bool_decide_eq_true. split; [intros ->; reflexivity|intros [= ->]; reflexivity].
Qed.


Lemma eq_str_false v s : eq_str v s = false ↔ v ≠ JStr s.
Proof.
  rewrite <- eq_str_true. destruct (eq_str v s); split; congruence.
Qed.

(** The handler on a payload that decodes to a dict, with the lookups
    spelled out. *)
Lemma handle_packet_dict payload m src w :
  loads B payload = Some (JDict m) →
  handle_packet B cfg payload src w =
    (let tok := default JNull (m !! "token"%string) in
     if negb (eq_str tok (TOKEN cfg)) then print (BadToken src) w else
     let tgt := default JNull (m !! "target"%string) in
     if truthy tgt && negb (eq_str tgt (DEVICE_ID cfg)) then Ok tt w else
     let cmd := default (JStr EmptyString) (m !! "cmd"%string) in
     if eq_str cmd "buzz" then
       (ms <- lift (py_int B (default (JInt 1000) (m !! "duration_ms"%string))) ;;
        inten <- lift (py_float B (default (JFloat (FFin 1)) (m !! "intensity"%string))) ;;
        start_vibe B (if ms <? 0 then 0 else if 10000 <? ms then 10000 else ms)
                   (if flt_neg inten then FFin 0
                    else if flt_gt1 inten then FFin 1 else inten) ;;;
        if truthy (default JNull (m !! "beep"%string)) then beep 120 else ret tt) w
     else if eq_str cmd "stop" then stop_vibe B w
     else if eq_str cmd "ping" then
       try_except (fun _ => true)
         (sendto (JDict {[ "id"%string := JStr (DEVICE_ID cfg);
                           "ip"%string := JStr (ifconfig_ip w);
                           "mode"%string := JStr (mode cfg);
                           "ok"%string := JBool true ]}) src) w
     else Ok tt w).
Proof.
  intros Hl. unfold handle_packet. rewrite Hl. cbn [get lift bind ret].
  unfold bind at 1. cbn [lift get].
  destruct (negb (eq_str _ (TOKEN cfg))); [reflexivity|].
  unfold bind at 1. cbn [lift get].
  destruct (truthy _ && negb _); [reflexivity|].
  unfold bind at 1. cbn [lift get].
  destruct (eq_str _ "buzz").
  - unfold bind. cbn [lift get]. reflexivity.
  - destruct (eq_str _ "stop"); [reflexivity|].
    destruct (eq_str _ "ping"); reflexivity.
Qed.

(** C4: a command whose [token] is not the node's token leaves the node
    state untouched and sends nothing, whatever its [cmd]. *)
Theorem C4_wrong_token_no_effect :
  ∀ (payload : list Byte.byte) (m : gmap string json) (src : addr) (w : world),
    loads B payload = Some (JDict m) →
    m !! "token"%string ≠ Some (JStr (TOKEN cfg)) →
    ∃ w', handle_packet B cfg payload src w = Ok tt w' ∧
          node w' = node w ∧ sent w' = sent w ∧ now w' = now w.
Proof.
  intros payload m src w Hl Htok.
  rewrite (handle_packet_dict _ _ _ _ Hl). cbn zeta.
  assert (eq_str (default JNull (m !! "token"%string)) (TOKEN cfg) = false) as ->.
  { apply eq_str_false. destruct (m !! "token"%string) as [v|]; simpl; congruence. }
  simpl. eexists. split; [reflexivity|]. auto.
Qed.


Lemma Qtrunc_comp (p q : Q) : (p == q)%Q → Qtrunc p = Qtrunc q.
Proof.
  intros H. unfold Qtrunc.
  destruct (Qlt_le_dec p 0) as [Hp|Hp], (Qlt_le_dec q 0) as [Hq|Hq].
  - now rewrite H.
  - rewrite H in Hp. exfalso. exact (Qlt_not_le _ _ Hp Hq).
  - rewrite H in Hp. exfalso. exact (Qlt_not_le _ _ Hq Hp).
  - now rewrite H.
Qed.

Lemma duty_of_comp (p q : Q) : (p == q)%Q → duty_of B p = duty_of B q.
Proof.
  intros H. unfold duty_of. apply Qtrunc_comp, fround_comp. now rewrite H.
Qed.

(** Intensity 0 is duty 0 in every format. *)
Lemma duty_of_0 : duty_of B 0 = 0.
Proof.
  unfold duty_of.
  rewrite (Qtrunc_comp (fround (fmt B) (0 * inject_Z 65535)) (inject_Z 0)).
  - reflexivity.
  - rewrite <- (fround_int (fmt B) 0) by lia. apply fround_comp. reflexivity.
Qed.

Lemma set_intensity_unit (r : Q) (w : world) :
  (0 <= r)%Q → (r <= 1)%Q →
  set_intensity B (FFin r) w = pwm_duty_u16 (duty_of B r) w.
Proof.
  intros H0 H1. unfold set_intensity, flt_neg.
  destruct (Qlt_le_dec r 0) as [Hc|_]; [exfalso; exact (Qlt_not_le _ _ Hc H0)|].
  unfold flt_gt1.
  destruct (Qlt_le_dec 1 r) as [Hc|_]; [exfalso; exact (Qlt_not_le _ _ Hc H1)|].
  reflexivity.
Qed.

(** The handler's conditional expression followed by [set_intensity]'s
    own clamp writes the duty of the clamped intensity. *)
Lemma set_intensity_clamped (x : pyfloat) (w : world) :
  x ≠ FNaN →
  set_intensity B (if flt_neg x then FFin 0 else if flt_gt1 x then FFin 1 else x) w
  = pwm_duty_u16 (duty_of B (clamp_intensity x)) w.
Proof.
  intros Hx. destruct x as [q| | |]; try congruence; try reflexivity.
  unfold flt_neg, flt_gt1, clamp_intensity.
  destruct (Qlt_le_dec q 0) as [Hlo|Hlo].
  - rewrite set_intensity_unit by discriminate.
    rewrite (duty_of_comp (Qmax 0 (Qmin 1 q)) 0); [reflexivity|].
    apply Q.max_l. rewrite Q.min_r; [now apply Qlt_le_weak|].
    apply Qle_trans with 0%Q; [now apply Qlt_le_weak|discriminate].
  - destruct (Qlt_le_dec 1 q) as [Hhi|Hhi].
    + rewrite set_intensity_unit by discriminate.
      rewrite (duty_of_comp (Qmax 0 (Qmin 1 q)) 1); [reflexivity|].
      rewrite Q.min_l; [|now apply Qlt_le_weak].
      apply Q.max_r. discriminate.
    + rewrite set_intensity_unit by assumption.
      rewrite (duty_of_comp (Qmax 0 (Qmin 1 q)) q); [reflexivity|].
      rewrite Q.min_r by assumption. now apply Q.max_r.
Qed.

Lemma clamp_ms_code (ms : Z) :
  (if ms <? 0 then 0 else if 10000 <? ms then 10000 else ms) = clamp_ms ms.
Proof.
  unfold clamp_ms. destruct (Z.ltb_spec ms 0); [lia|].
  destruct (Z.ltb_spec 10000 ms); lia.
Qed.

Lemma clamp_ms_range (ms : Z) : 0 <= clamp_ms ms <= 10000.
Proof. unfold clamp_ms. lia. Qed.

Lemma authorised_passes (m : gmap string json) :
  authorised cfg m →
  negb (eq_str (default JNull (m !! "token"%string)) (TOKEN cfg)) = false ∧
  truthy (default JNull (m !! "target"%string))
    && negb (eq_str (default JNull (m !! "target"%string)) (DEVICE_ID cfg)) = false.
Proof.
  intros [Htok Htgt]. rewrite Htok. cbn [default]. split.
  - apply negb_false_iff, eq_str_true. reflexivity.
  - destruct Htgt as [-> | ->]; cbn [default]; [reflexivity|].
    apply andb_false_iff. right. apply negb_false_iff, eq_str_true. reflexivity.
Qed.

Lemma handle_packet_buzz payload ms x b src w :
  buzz_command B cfg payload ms x b →
  handle_packet B cfg payload src w = Ok tt (buzzed B ms x b w).
Proof.
  intros (m & Hl & Hauth & Hcmd & Hms & Hx & Hnan & Hb).
  rewrite (handle_packet_dict _ _ _ _ Hl). cbn zeta.
  destruct (authorised_passes m Hauth) as [-> ->].
  rewrite Hcmd. cbn [default from_option id eq_str].
  rewrite bool_decide_eq_true_2 by reflexivity.
  rewrite Hms, Hx, Hb. unfold bind at 1. cbn [lift]. unfold bind at 1. cbn [lift].
  rewrite clamp_ms_code. unfold bind at 1, start_vibe. unfold bind at 1.
  rewrite set_intensity_clamped by assumption.
  pose proof (clamp_ms_range ms) as Hr.
  unfold pwm_duty_u16, bind, ticks_ms, set_active_until_ms, with_node, buzzed.
  cbn. rewrite Z.max_r by lia.
  destruct b; reflexivity.
Qed.


(** C2, as the code has it: an authorised [buzz] whose [duration_ms]
    converts with [int()] and whose [intensity] converts with [float()]
    to a number is never refused for its range; it applies the converted
    duration clamped to [0, 10000] and the intensity clamped to
    [0.0, 1.0], the duty written being [int(intensity * 65535)] in the
    float arithmetic of the platform. *)
Theorem C2_buzz_clamps :
  ∀ (payload : list Byte.byte) (ms : Z) (x : pyfloat) (b : bool) (src : addr) (w : world),
    buzz_command B cfg payload ms x b →
    ∃ w', handle_packet B cfg payload src w = Ok tt w' ∧
          duty (node w') = duty_of B (clamp_intensity x) ∧
          active_until_ms (node w') = ticks_add (ticks_of (now w)) (clamp_ms ms) ∧
          0 <= clamp_ms ms <= 10000 ∧
          (ms < 0 → clamp_ms ms = 0) ∧ (10000 < ms → clamp_ms ms = 10000) ∧
          (0 <= ms <= 10000 → clamp_ms ms = ms).
Proof.
  intros payload ms x b src w Hb.
  exists (buzzed B ms x b w). split; [now apply handle_packet_buzz|].
  unfold clamp_ms. cbn. repeat split; lia.
Qed.

Lemma receive_datagram n data src w :
  receive B cfg (Datagram n data src) w =
  try_except (fun e => exn_eqb e OSError) (handle_packet B cfg (firstn 512 data) src)
    (World (node w) (now w + Z.of_N n) (ifconfig_ip w) (link_up w) (sent w) (console w)).
Proof. reflexivity. Qed.



(** C9, as the code has it: the alert pulse leaves the intensity output
    and [active_until_ms] as the same [buzz] without [beep] leaves
    them, puts the buzzer back to 0, and is synchronous: the handler
    returns 120 ms later. *)
Theorem C9_beep_keeps_state_and_blocks :
  ∀ (payload : list Byte.byte) (ms : Z) (x : pyfloat) (src : addr) (w : world),
    buzz_command B cfg payload ms x true →
    ∃ w', handle_packet B cfg payload src w = Ok tt w' ∧
          duty (node w') = duty (node (buzzed B ms x false w)) ∧
          active_until_ms (node w') = active_until_ms (node (buzzed B ms x false w)) ∧
          buzzer (node w') = false ∧
          now w' = now w + 120.
Proof.
  intros payload ms x src w Hb.
  exists (buzzed B ms x true w). split; [now apply handle_packet_buzz|].
  cbn. auto.
Qed.

Lemma mode_values : mode cfg = "STA"%string ∨ mode cfg = "AP"%string.
Proof. unfold mode. destruct (sta cfg); auto. Qed.

Lemma handle_packet_ping payload src w :
  ping_command B cfg payload →
  handle_packet B cfg payload src w = Ok tt (pinged cfg src w).
Proof.
  intros (m & Hl & Hauth & Hcmd).
  rewrite (handle_packet_dict _ _ _ _ Hl). cbn zeta.
  destruct (authorised_passes m Hauth) as [-> ->].
  rewrite Hcmd. cbn [default from_option id eq_str].
  rewrite bool_decide_eq_false_2 by discriminate.
  rewrite bool_decide_eq_false_2 by discriminate.
  rewrite bool_decide_eq_true_2 by reflexivity.
  unfold try_except, sendto, pinged, reply.
  destruct (link_up w); reflexivity.
Qed.

(** C7, as the code has it: an accepted [ping] leaves the actuation
    state alone and hands one reply to the socket for the sender (a send
    error is swallowed, and then nothing goes out); the reply carries
    the node id, the current address, [ok] true and a [mode] that is
    [STA] or [AP]. *)
Theorem C7_ping_reply :
  ∀ (payload : list Byte.byte) (src : addr) (w : world),
    ping_command B cfg payload →
    ∃ w' d,
      handle_packet B cfg payload src w = Ok tt w' ∧
      node w' = node w ∧ now w' = now w ∧
      sent w' = (if link_up w then sent w ++ [(JDict d, src)] else sent w) ∧
      d !! "id"%string = Some (JStr (DEVICE_ID cfg)) ∧
      d !! "ip"%string = Some (JStr (ifconfig_ip w)) ∧
      d !! "ok"%string = Some (JBool true) ∧
      (d !! "mode"%string = Some (JStr "STA") ∨ d !! "mode"%string = Some (JStr "AP")) ∧
      dom d = {[ "id"%string; "ip"%string; "mode"%string; "ok"%string ]}.
Proof.
  intros payload src w Hp.
  exists (pinged cfg src w), (reply cfg w).
  split; [now apply handle_packet_ping|]. unfold pinged.
  split; [destruct (link_up w); reflexivity|].
  split; [destruct (link_up w); reflexivity|].
  split; [destruct (link_up w); reflexivity|].
  split; [reflexivity|].
  split; [reflexivity|].
  split; [reflexivity|].
  split.
  - unfold reply. destruct mode_values as [Hm|Hm]; [left|right]; rewrite Hm; reflexivity.
  - unfold reply. rewrite !dom_insert_L, dom_singleton_L. set_solver.
Qed.

Lemma stop_vibe_eq w :
  stop_vibe B w = Ok tt (with_node (fun s => NodeState 0 (buzzer s) 0) w).
Proof.
  unfold stop_vibe, bind. rewrite set_intensity_unit by discriminate.
  rewrite duty_of_0. reflexivity.
Qed.

(** What a handler call that returns can have done to the node: nothing,
    a stop, or a start with a deadline a clamped duration ahead. *)
Lemma handle_packet_effect payload src w w1 :
  handle_packet B cfg payload src w = Ok tt w1 →
  now w <= now w1 ∧
  (node w1 = node w ∨
   (duty (node w1) = 0 ∧ active_until_ms (node w1) = 0) ∨
   ∃ ms, 0 <= ms <= 10000 ∧
         active_until_ms (node w1) = ticks_add (ticks_of (now w)) ms).
Proof.
  destruct (loads B payload) as [msg|] eqn:Hl.
  2: { unfold handle_packet. rewrite Hl. intros [= <-]. cbn. split; [lia|auto]. }
  destruct msg as [| | | | | |m];
    try (unfold handle_packet; rewrite Hl; cbn; discriminate).
  rewrite (handle_packet_dict _ _ _ _ Hl). cbn zeta.
  destruct (negb _).
  { intros [= <-]. cbn. split; [lia|auto]. }
  destruct (truthy _ && _).
  { intros [= <-]. split; [lia|auto]. }
  destruct (eq_str _ "buzz").
  - unfold bind at 1.
    destruct (py_int B _) as [e|ms]; [cbn; discriminate|]. cbn [lift].
    unfold bind at 1.
    destruct (py_float B _) as [e|x]; [cbn; discriminate|]. cbn [lift].
    rewrite clamp_ms_code. pose proof (clamp_ms_range ms) as Hr.
    assert (x = FNaN ∨ x ≠ FNaN) as [->|Hx]
      by (destruct x; auto; right; discriminate).
    { cbn. discriminate. }
    unfold bind at 1, start_vibe. unfold bind at 1.
    rewrite set_intensity_clamped by assumption.
    unfold pwm_duty_u16, bind, ticks_ms, set_active_until_ms, with_node.
    cbn. rewrite Z.max_r by lia.
    destruct (truthy _); intros [= <-]; cbn; (split; [lia|]);
      right; right; exists (clamp_ms ms); auto.
  - destruct (eq_str _ "stop").
    { rewrite stop_vibe_eq. intros [= <-]. cbn. split; [lia|auto]. }
    destruct (eq_str _ "ping").
    + unfold try_except, sendto. destruct (link_up w); intros [= <-]; cbn;
        (split; [lia|auto]).
    + intros [= <-]. split; [lia|auto].
Qed.


Lemma py_int_exn v e : py_int B v = inl e → exn_eqb e OSError = false.
Proof.
  destruct v as [| | |f| | |]; cbn; try (intros [= <-]; reflexivity).
  - destruct f; cbn; intros [= <-]; reflexivity.
  - destruct (int_of_str B s); intros [= <-]; reflexivity.
Qed.

Lemma py_float_exn v e : py_float B v = inl e → exn_eqb e OSError = false.
Proof.
  destruct v as [| | | | | |]; cbn; try (intros [= <-]; reflexivity).
  destruct (float_of_str B s); intros [= <-]; reflexivity.
Qed.

(** A handler call that raises has changed nothing, and what it raises
    is not the [OSError] the loop is prepared for. *)
Lemma handle_packet_raise payload src w e w1 :
  handle_packet B cfg payload src w = Raise e w1 →
  w1 = w ∧ exn_eqb e OSError = false.
Proof.
  destruct (loads B payload) as [msg|] eqn:Hl.
  2: { unfold handle_packet. rewrite Hl. discriminate. }
  destruct msg as [| | | | | |m];
    try (unfold handle_packet; rewrite Hl; cbn; intros [= <- <-]; auto).
  rewrite (handle_packet_dict _ _ _ _ Hl). cbn zeta.
  destruct (negb _); [discriminate|].
  destruct (truthy _ && _); [discriminate|].
  destruct (eq_str _ "buzz").
  - unfold bind at 1.
    destruct (py_int B _) as [e1|ms] eqn:Hi; cbn [lift].
    { intros [= <- <-]. split; [reflexivity|]. eapply py_int_exn, Hi. }
    unfold bind at 1.
    destruct (py_float B _) as [e1|x] eqn:Hf; cbn [lift].
    { intros [= <- <-]. split; [reflexivity|]. eapply py_float_exn, Hf. }
    assert (x = FNaN ∨ x ≠ FNaN) as [->|Hx]
      by (destruct x; auto; right; discriminate).
    { cbn. intros [= <- <-]. auto. }
    unfold bind at 1, start_vibe. unfold bind at 1.
    rewrite set_intensity_clamped by assumption.
    unfold pwm_duty_u16, bind, ticks_ms, set_active_until_ms, with_node.
    cbn. destruct (truthy _); discriminate.
  - destruct (eq_str _ "stop").
    { rewrite stop_vibe_eq. discriminate. }
    destruct (eq_str _ "ping"); [|discriminate].
    unfold try_except, sendto. destruct (link_up w); discriminate.
Qed.

(** C1, where the code departs from it: a [buzz] whose [duration_ms]
    does not convert raises out of the handler, the loop's
    [except OSError] does not catch it, and the loop ends there. *)
Theorem C1_conversion_error_ends_loop :
  ∀ (n : N) (data : list Byte.byte) (src : addr) (rest : list recv_event)
    (m : gmap string json) (e : exn) (w : world),
    loads B (firstn 512 data) = Some (JDict m) →
    authorised cfg m →
    m !! "cmd"%string = Some (JStr "buzz") →
    py_int B (default (JInt 1000) (m !! "duration_ms"%string)) = inl e →
    main_loop B cfg (Datagram n data src :: rest) w
    = Raise e (World (node w) (now w + Z.of_N n) (ifconfig_ip w) (link_up w)
                     (sent w) (console w)).
Proof.
  intros n data src rest m e w Hl Hauth Hcmd Hint.
  cbn [main_loop]. unfold bind at 1, loop_body. unfold bind at 1.
  rewrite receive_datagram. unfold try_except.
  rewrite (handle_packet_dict _ _ _ _ Hl). cbn zeta.
  destruct (authorised_passes m Hauth) as [-> ->].
  rewrite Hcmd. cbn [default from_option id eq_str].
  rewrite bool_decide_eq_true_2 by reflexivity.
  fold (default (JInt 1000) (m !! "duration_ms"%string)).
  unfold bind at 1. rewrite Hint. cbn [lift].
  rewrite (py_int_exn _ _ Hint). reflexivity.
Qed.

(** The deadline check leaves no deadline that is not ahead. *)
Lemma loop_body_deadline_ahead ev w w' :
  loop_body B cfg ev w = Ok tt w' →
  active_until_ms (node w') ≠ 0 → in_future w'.
Proof.
  unfold loop_body, bind.
  destruct (receive B cfg ev w) as [[] w1|e w1]; [|discriminate].
  unfold deadline_check, bind, get_active_until_ms, ticks_ms.
  destruct (Z.eqb_spec (active_until_ms (node w1)) 0) as [Hz|Hnz].
  - intros [= <-] Hc. contradiction.
  - destruct (Z.leb_spec (ticks_diff (active_until_ms (node w1)) (ticks_of (now w1))) 0)
      as [Hle|Hgt].
    + rewrite stop_vibe_eq. intros [= <-]. cbn. intros Hc. contradiction.
    + intros [= <-] _. exact Hgt.
Qed.

(** One iteration keeps the output under a live deadline, unless its
    [buzz] stored a deadline that wrapped to 0. *)
Lemma loop_body_output ev w w' :
  output_needs_set_deadline w →
  loop_body B cfg ev w = Ok tt w' →
  output_needs_deadline w' ∨
  (duty (node w') ≠ 0 ∧ active_until_ms (node w') = 0 ∧
   ∃ ms, 0 <= ms <= 10000 ∧
         ticks_add (ticks_of (now w + Z.of_N (waited_of ev))) ms = 0).
Proof.
  intros Hinv Hbody. pose proof (loop_body_deadline_ahead _ _ _ Hbody) as Hahead.
  revert Hbody. unfold loop_body, bind.
  set (wa := World (node w) (now w + Z.of_N (waited_of ev)) (ifconfig_ip w)
                   (link_up w) (sent w) (console w)).
  assert (∀ w1, receive B cfg ev w = Ok tt w1 →
            node w1 = node w ∨
            (duty (node w1) = 0 ∧ active_until_ms (node w1) = 0) ∨
            ∃ ms, 0 <= ms <= 10000 ∧
                  active_until_ms (node w1) = ticks_add (ticks_of (now wa)) ms) as Hrecv.
  { intros w1. destruct ev as [n|n data src].
    - cbn. intros [= <-]. auto.
    - rewrite receive_datagram. unfold try_except.
      change (World (node w) (now w + Z.of_N n) (ifconfig_ip w) (link_up w)
                    (sent w) (console w)) with wa.
      destruct (handle_packet B cfg (firstn 512 data) src wa) as [[] w2|e w2] eqn:Hh.
      + cbv beta iota. intros [= <-]. exact (proj2 (handle_packet_effect _ _ _ _ Hh)).
      + destruct (handle_packet_raise _ _ _ _ _ Hh) as [_ He].
        cbv beta iota. rewrite He. discriminate. }
  destruct (receive B cfg ev w) as [[] w1|e w1]; [|discriminate].
  specialize (Hrecv w1 eq_refl).
  unfold deadline_check, bind, get_active_until_ms, ticks_ms.
  destruct (Z.eqb_spec (active_until_ms (node w1)) 0) as [Hz|Hnz].
  - intros [= <-].
    destruct (Z.eq_dec (duty (node w1)) 0) as [Hd|Hd].
    { left. intros Hc. contradiction. }
    destruct Hrecv as [Hn|[[Hd0 _]|(ms & Hms & Hau)]].
    + rewrite Hn in Hd, Hz. exfalso. exact (Hinv Hd Hz).
    + contradiction.
    + right. repeat split; try assumption. exists ms. split; [assumption|].
      rewrite <- Hz. symmetry. exact Hau.
  - intros Hw'. left. intros Hd.
    assert (active_until_ms (node w') ≠ 0) as Hset.
    { revert Hw'. destruct (ticks_diff _ _ <=? 0).
      - rewrite stop_vibe_eq. intros [= <-]. cbn in Hd. contradiction.
      - intros [= <-]. exact Hnz. }
    split; [exact Hset|exact (Hahead Hset)].
Qed.

Lemma main_loop_snoc pre ev w :
  main_loop B cfg (pre ++ [ev]) w = (main_loop B cfg pre ;;; loop_body B cfg ev) w.
Proof.
  revert w. induction pre as [|e0 pre IH]; intros w.
  - cbn. unfold bind, ret. destruct (loop_body B cfg ev w) as [[] w1|e w1]; reflexivity.
  - cbn [app main_loop]. unfold bind.
    destruct (loop_body B cfg e0 w) as [[] w1|e w1]; [|reflexivity].
    rewrite IH. reflexivity.
Qed.

(** C3, as the code has it: at the end of every loop iteration, for
    every sequence of datagrams and timeouts, a set deadline is strictly
    ahead of the clock, and the output is on only under such a deadline,
    unless some [buzz] stored a deadline that wrapped to the tick
    value 0. *)
Theorem C3_output_needs_live_deadline :
  ∀ (evs : list recv_event) (w w' : world),
    evs ≠ [] →
    output_needs_set_deadline w →
    main_loop B cfg evs w = Ok tt w' →
    (active_until_ms (node w') ≠ 0 → in_future w') ∧
    (output_needs_deadline w' ∨ zero_deadline_stored B cfg evs w).
Proof.
  induction evs as [|ev pre IH] using rev_ind; intros w w' Hne Hinv Hrun;
    [congruence|].
  rewrite main_loop_snoc in Hrun. unfold bind in Hrun.
  destruct (main_loop B cfg pre w) as [[] w1|e w1] eqn:Hpre; [|discriminate].
  split; [exact (loop_body_deadline_ahead _ _ _ Hrun)|].
  assert (output_needs_set_deadline w1 ∨ zero_deadline_stored B cfg pre w) as [Hinv1|Hz].
  { destruct pre as [|e0 pre'].
    - left. cbn in Hpre. injection Hpre as <-. exact Hinv.
    - destruct (IH w w1 ltac:(discriminate) Hinv Hpre) as [_ [Hgood|Hz]]; [|now right].
      left. intros Hd. exact (proj1 (Hgood Hd)). }
  - destruct (loop_body_output _ _ _ Hinv1 Hrun) as [Hgood|(Hd & Hau & ms & Hms & Hwrap)];
      [now left|].
    right. exists pre, ev, [], w1, w', ms.
    split; [reflexivity|]. split; [exact Hpre|]. split; [exact Hrun|]. auto.
  - right. destruct Hz as (p & e & post & wa & wb & ms & -> & H).
    exists p, e, (post ++ [ev]), wa, wb, ms.
    split; [now rewrite <- app_assoc|exact H].
Qed.

(** C10: a [target] that is the empty string is handled exactly as a
    missing [target]; with the node's token a [ping] is answered, a
    [stop] is applied and a [buzz] starts the vibration. *)
Theorem C10_empty_target_is_no_filter :
  ∀ (payload payload' : list Byte.byte) (m : gmap string json) (src : addr) (w : world),
    loads B payload = Some (JDict m) →
    m !! "target"%string = Some (JStr EmptyString) →
    loads B payload' = Some (JDict (delete "target"%string m)) →
    handle_packet B cfg payload src w = handle_packet B cfg payload' src w ∧
    (m !! "token"%string = Some (JStr (TOKEN cfg)) →
     (m !! "cmd"%string = Some (JStr "ping") →
      handle_packet B cfg payload src w = Ok tt (pinged cfg src w)) ∧
     (m !! "cmd"%string = Some (JStr "stop") →
      handle_packet B cfg payload src w
      = Ok tt (with_node (fun s => NodeState 0 (buzzer s) 0) w)) ∧
     (m !! "cmd"%string = Some (JStr "buzz") →
      ∀ (ms : Z) (x : pyfloat),
        py_int B (default (JInt 1000) (m !! "duration_ms"%string)) = inr ms →
        py_float B (default (JFloat (FFin 1)) (m !! "intensity"%string)) = inr x →
        x ≠ FNaN →
        handle_packet B cfg payload src w
        = Ok tt (buzzed B ms x (truthy (default JNull (m !! "beep"%string))) w))).
Proof.
  intros payload payload' m src w Hl Htgt Hl'.
  assert (handle_packet B cfg payload src w = handle_packet B cfg payload' src w) as Heq.
  { rewrite (handle_packet_dict _ _ _ _ Hl), (handle_packet_dict _ _ _ _ Hl').
    rewrite lookup_delete_eq, Htgt.
    rewrite !lookup_delete_ne by discriminate. reflexivity. }
  split; [exact Heq|]. intros Htok. rewrite Heq.
  assert (authorised cfg (delete "target"%string m)) as Hauth.
  { split; [rewrite lookup_delete_ne by discriminate; exact Htok|].
    left. apply lookup_delete_eq. }
  split; [|split]; intros Hcmd.
  - apply handle_packet_ping. exists (delete "target"%string m).
    repeat split; try apply Hauth; try assumption.
    rewrite lookup_delete_ne by discriminate. exact Hcmd.
  - rewrite (handle_packet_dict _ _ _ _ Hl'). cbn zeta.
    destruct (authorised_passes _ Hauth) as [-> ->].
    rewrite lookup_delete_ne by discriminate. rewrite Hcmd.
    cbn [default from_option id eq_str].
    rewrite bool_decide_eq_false_2 by discriminate.
    rewrite bool_decide_eq_true_2 by reflexivity.
    apply stop_vibe_eq.
  - intros ms x Hms Hx Hnan. apply handle_packet_buzz.
    exists (delete "target"%string m). split; [exact Hl'|]. split; [exact Hauth|].
    rewrite !lookup_delete_ne by discriminate. auto.
Qed.

End NodeFacts.

(** ** Properties of the controller *)

Section ClientFacts.

Lemma prefix_of_netmask (p : Z) :
  0 <= p <= 32 → prefix_from_ip_string (ip_int_from_prefix p) = Some p.
Proof.
  intros Hp.
  assert (forallb (fun q => match prefix_from_ip_string (ip_int_from_prefix q) with
                            | Some r => r =? q
                            | None => false
                            end) (map Z.of_nat (seq 0 33)) = true) as Hall
    by (vm_compute; reflexivity).
  rewrite forallb_forall in Hall.
  specialize (Hall p).
  destruct (prefix_from_ip_string (ip_int_from_prefix p)) as [r|].
  - f_equal. apply Z.eqb_eq, Hall. apply in_map_iff. exists (Z.to_nat p).
    split; [lia|]. apply in_seq. lia.
  - discriminate Hall. apply in_map_iff. exists (Z.to_nat p).
    split; [lia|]. apply in_seq. lia.
Qed.

Lemma netmask_range (p : Z) : 0 <= p <= 32 → 0 <= ip_int_from_prefix p <= ALL_ONES.
Proof.
  intros Hp.
  assert (forallb (fun q => (0 <=? ip_int_from_prefix q) && (ip_int_from_prefix q <=? ALL_ONES))
                  (map Z.of_nat (seq 0 33)) = true) as Hall
    by (vm_compute; reflexivity).
  rewrite forallb_forall in Hall.
  specialize (Hall p). rewrite andb_true_iff, Z.leb_le, Z.leb_le in Hall.
  apply Hall. apply in_map_iff. exists (Z.to_nat p).
  split; [lia|]. apply in_seq. lia.
Qed.

(** C6, as the code has it: for an address and a netmask the broadcast
    address is the address AND the mask, OR the inverted mask. *)
Theorem C6_broadcast_of_netmask :
  ∀ (ip mask : Z),
    0 <= ip <= ALL_ONES →
    is_netmask mask →
    calc_broadcast ip (MaskQuad mask)
    = inr (Z.lor (Z.land ip mask) (Z.lxor mask ALL_ONES)).
Proof.
  intros ip mask Hip (p & Hp & ->).
  unfold calc_broadcast, make_netmask.
  pose proof (netmask_range p Hp) as Hr.
  replace ((0 <=? ip) && (ip <=? ALL_ONES)) with true
    by (symmetry; apply andb_true_iff; split; apply Z.leb_le; lia).
  replace ((0 <=? ip_int_from_prefix p) && (ip_int_from_prefix p <=? ALL_ONES)) with true
    by (symmetry; apply andb_true_iff; split; apply Z.leb_le; lia).
  cbn [negb]. rewrite (prefix_of_netmask p Hp). reflexivity.
Qed.



End ClientFacts.

(** ** Further properties of the node *)

Section NodeMore.
Context (B : builtins) (cfg : config).

(** Everything a handler call can do. *)
Lemma handle_packet_cases payload src w :
  handle_packet B cfg payload src w = Ok tt (final_world (print (BadJSON src) w)) ∨
  handle_packet B cfg payload src w = Ok tt (final_world (print (BadToken src) w)) ∨
  handle_packet B cfg payload src w = Ok tt w ∨
  (∃ e, handle_packet B cfg payload src w = Raise e w ∧ exn_eqb e OSError = false) ∨
  (∃ ms x b, handle_packet B cfg payload src w = Ok tt (buzzed B ms x b w)) ∨
  handle_packet B cfg payload src w = Ok tt (stopped w) ∨
  handle_packet B cfg payload src w = Ok tt (pinged cfg src w).
Proof.
  destruct (loads B payload) as [msg|] eqn:Hl.
  2: { left. unfold handle_packet. rewrite Hl. reflexivity. }
  destruct msg as [| | | | | |m];
    try (do 3 right; left; exists AttributeError;
         unfold handle_packet; rewrite Hl; split; reflexivity).
  rewrite (handle_packet_dict _ _ _ _ _ _ Hl). cbn zeta.
  destruct (negb _); [right; left; reflexivity|].
  destruct (truthy _ && _); [do 2 right; left; reflexivity|].
  destruct (eq_str _ "buzz").
  - destruct (py_int B _) as [e1|ms] eqn:Hi.
    { do 3 right. left. exists e1. split; [reflexivity|]. eapply py_int_exn, Hi. }
    destruct (py_float B _) as [e1|x] eqn:Hf.
    { do 3 right. left. exists e1. split; [reflexivity|]. eapply py_float_exn, Hf. }
    assert (x = FNaN ∨ x ≠ FNaN) as [->|Hx]
      by (destruct x; auto; right; discriminate).
    { do 3 right. left. exists ValueError. split; reflexivity. }
    do 4 right. left. exists ms, x, (truthy (default JNull (m !! "beep"%string))).
    unfold bind at 1. cbn [lift]. unfold bind at 1. cbn [lift].
    rewrite clamp_ms_code. pose proof (clamp_ms_range ms) as Hr.
    unfold bind at 1, start_vibe. unfold bind at 1.
    rewrite set_intensity_clamped by assumption.
    unfold pwm_duty_u16, bind, ticks_ms, set_active_until_ms, with_node, buzzed.
    cbn. rewrite Z.max_r by lia.
    destruct (truthy _); reflexivity.
  - destruct (eq_str _ "stop").
    { do 5 right. left. apply stop_vibe_eq. }
    destruct (eq_str _ "ping").
    + do 6 right. unfold try_except, sendto, pinged, reply.
      destruct (link_up w); reflexivity.
    + do 2 right. left. reflexivity.
Qed.

Lemma cmd_is (m : gmap string json) (c : string) :
  c ≠ EmptyString →
  eq_str (default (JStr EmptyString) (m !! "cmd"%string)) c = true ↔
  m !! "cmd"%string = Some (JStr c).
Proof.
  intros Hc. rewrite eq_str_true. destruct (m !! "cmd"%string) as [v|]; cbn.
  - split; [intros ->; reflexivity|intros [= ->]; reflexivity].
  - split; [intros [= H]; congruence|discriminate].
Qed.

Lemma deadline_check_cases w :
  deadline_check B w = Ok tt w ∨
  (active_until_ms (node w) ≠ 0 ∧ deadline_check B w = Ok tt (stopped w)).
Proof.
  unfold deadline_check, bind, get_active_until_ms, ticks_ms.
  destruct (Z.eqb_spec (active_until_ms (node w)) 0) as [Hz|Hnz]; [left; reflexivity|].
  destruct (ticks_diff _ _ <=? 0); [|left; reflexivity].
  right. split; [assumption|]. apply stop_vibe_eq.
Qed.

(** An authorised [stop] ends the vibration at once, whatever deadline
    was running: the iteration ends with output 0 and no deadline, and
    nothing is sent. *)
Theorem stop_ends_vibration :
  ∀ (n : N) (data : list Byte.byte) (src : addr) (w : world),
    stop_command B cfg (firstn 512 data) →
    ∃ w', loop_body B cfg (Datagram n data src) w = Ok tt w' ∧
          duty (node w') = 0 ∧ active_until_ms (node w') = 0 ∧
          buzzer (node w') = buzzer (node w) ∧
          sent w' = sent w ∧ now w' = now w + Z.of_N n.
Proof.
  intros n data src w (m & Hl & Hauth & Hcmd).
  unfold loop_body, bind. rewrite receive_datagram. unfold try_except.
  rewrite (handle_packet_dict _ _ _ _ _ _ Hl). cbn zeta.
  destruct (authorised_passes _ m Hauth) as [-> ->].
  rewrite Hcmd. cbn [default from_option id eq_str].
  rewrite bool_decide_eq_false_2 by discriminate.
  rewrite bool_decide_eq_true_2 by reflexivity.
  rewrite stop_vibe_eq.
  eexists. split; [reflexivity|]. cbn. auto.
Qed.

Lemma handle_packet_foreign_target payload m tgt src w :
  loads B payload = Some (JDict m) →
  m !! "token"%string = Some (JStr (TOKEN cfg)) →
  m !! "target"%string = Some tgt →
  truthy tgt = true →
  tgt ≠ JStr (DEVICE_ID cfg) →
  handle_packet B cfg payload src w = Ok tt w.
Proof.
  intros Hl Htok Htgt Htrue Hne.
  rewrite (handle_packet_dict _ _ _ _ _ _ Hl). cbn zeta.
  rewrite Htok, Htgt. cbn [default from_option id].
  replace (eq_str (JStr (TOKEN cfg)) (TOKEN cfg)) with true
    by (symmetry; now apply eq_str_true).
  rewrite Htrue. apply eq_str_false in Hne. rewrite Hne. reflexivity.
Qed.

(** A message with the node's token but a non-empty [target] other than
    the node's id changes nothing at all: no state change, no reply, no
    console line, whatever its [cmd]. *)
Theorem foreign_target_ignored :
  ∀ (payload : list Byte.byte) (m : gmap string json) (tgt : json) (src : addr) (w : world),
    loads B payload = Some (JDict m) →
    m !! "token"%string = Some (JStr (TOKEN cfg)) →
    m !! "target"%string = Some tgt →
    truthy tgt = true →
    tgt ≠ JStr (DEVICE_ID cfg) →
    handle_packet B cfg payload src w = Ok tt w.
Proof.
  intros payload m tgt src w Hl Htok Htgt Htrue Hne.
  destruct tgt; eapply handle_packet_foreign_target; eassumption.
Qed.

(** An authorised message whose [cmd] is missing or is none of [buzz],
    [stop] and [ping] changes nothing at all. *)
Theorem unknown_cmd_ignored :
  ∀ (payload : list Byte.byte) (m : gmap string json) (src : addr) (w : world),
    loads B payload = Some (JDict m) →
    authorised cfg m →
    m !! "cmd"%string ≠ Some (JStr "buzz") →
    m !! "cmd"%string ≠ Some (JStr "stop") →
    m !! "cmd"%string ≠ Some (JStr "ping") →
    handle_packet B cfg payload src w = Ok tt w.
Proof.
  intros payload m src w Hl Hauth Hb Hs Hp.
  rewrite (handle_packet_dict _ _ _ _ _ _ Hl). cbn zeta.
  destruct (authorised_passes _ m Hauth) as [-> ->].
  destruct (eq_str _ "buzz") eqn:E1.
  { apply cmd_is in E1; [contradiction|discriminate]. }
  destruct (eq_str _ "stop") eqn:E2.
  { apply cmd_is in E2; [contradiction|discriminate]. }
  destruct (eq_str _ "ping") eqn:E3.
  { apply cmd_is in E3; [contradiction|discriminate]. }
  reflexivity.
Qed.

Lemma handle_packet_raises_iff payload src w :
  (∃ e, handle_packet B cfg payload src w = Raise e w ∧ exn_eqb e OSError = false)
  ↔ crashing B cfg payload.
Proof.
  unfold crashing.
  destruct (loads B payload) as [msg|] eqn:Hl.
  2: { unfold handle_packet. rewrite Hl. split; [intros (e & H & _); discriminate H|tauto]. }
  destruct msg as [| | | | | |m];
    try (split; [tauto|]; intros _; exists AttributeError;
         unfold handle_packet; rewrite Hl; split; reflexivity).
  rewrite (handle_packet_dict _ _ _ _ _ _ Hl). cbn zeta.
  destruct (eq_str (default JNull (m !! "token"%string)) (TOKEN cfg)); cbn [negb].
  2: { split; [intros (e & H & _); discriminate H|intros [H _]; discriminate H]. }
  destruct (truthy _ && _).
  { split; [intros (e & H & _); discriminate H|intros (_ & H & _); discriminate H]. }
  destruct (eq_str _ "buzz") eqn:Ecmd.
  - apply cmd_is in Ecmd; [|discriminate].
    destruct (py_int B _) as [e1|ms] eqn:Hi.
    { split.
      - intros _. repeat split; try assumption. left. exists e1. reflexivity.
      - intros _. exists e1. split; [reflexivity|]. eapply py_int_exn, Hi. }
    destruct (py_float B _) as [e1|x] eqn:Hf.
    { split.
      - intros _. repeat split; try assumption. right. left. exists e1. reflexivity.
      - intros _. exists e1. split; [reflexivity|]. eapply py_float_exn, Hf. }
    assert (x = FNaN ∨ x ≠ FNaN) as [->|Hx]
      by (destruct x; auto; right; discriminate).
    { split.
      - intros _. repeat split; try assumption. right. right. reflexivity.
      - intros _. exists ValueError. split; reflexivity. }
    split.
    + intros (e & H & _). exfalso. revert H.
      unfold bind at 1. cbn [lift]. unfold bind at 1. cbn [lift].
      unfold bind at 1, start_vibe. unfold bind at 1.
      rewrite set_intensity_clamped by assumption.
      unfold pwm_duty_u16, bind, ticks_ms, set_active_until_ms, with_node.
      cbn. destruct (truthy _); discriminate.
    + intros (_ & _ & _ & [[e H]|[[e H]|H]]); try discriminate H.
      injection H as ->. contradiction.
  - split.
    + intros (e & H & _). exfalso. revert H.
      destruct (eq_str _ "stop"); [rewrite stop_vibe_eq; discriminate|].
      destruct (eq_str _ "ping"); [|discriminate].
      unfold try_except, sendto. destruct (link_up w); discriminate.
    + intros (_ & _ & Hc & _). apply cmd_is in Hc; [|discriminate]. congruence.
Qed.

(** The loop ends on a datagram exactly when its first 512 bytes decode
    to a JSON value that is not an object, or to an authorised [buzz]
    whose [duration_ms] or [intensity] does not convert or is NaN.  No
    token is needed for the first kind. *)
Theorem loop_ends_exactly_on_crashing :
  ∀ (n : N) (data : list Byte.byte) (src : addr) (w : world),
    (∃ e w', loop_body B cfg (Datagram n data src) w = Raise e w')
    ↔ crashing B cfg (firstn 512 data).
Proof.
  intros n data src w.
  set (wa := World (node w) (now w + Z.of_N n) (ifconfig_ip w) (link_up w)
                   (sent w) (console w)).
  rewrite <- (handle_packet_raises_iff (firstn 512 data) src wa).
  unfold loop_body, bind. rewrite receive_datagram. unfold try_except. fold wa.
  split.
  - intros (e & w' & H).
    destruct (handle_packet B cfg (firstn 512 data) src wa) as [[] w1|e1 w1] eqn:Hh.
    + exfalso. destruct (deadline_check_cases w1) as [Hd|[_ Hd]];
        rewrite Hd in H; discriminate H.
    + destruct (handle_packet_raise _ _ _ _ _ _ _ Hh) as [-> He].
      exists e1. split; [reflexivity|exact He].
  - intros (e & Hh & He). rewrite Hh, He. exists e, wa. reflexivity.
Qed.

(** A timeout never ends the loop. *)
Lemma loop_body_timeout n w :
  loop_body B cfg (Timeout n) w
  = deadline_check B (World (node w) (now w + Z.of_N n) (ifconfig_ip w) (link_up w)
                                (sent w) (console w)).
Proof. reflexivity. Qed.

Lemma clamp_intensity_range (x : pyfloat) :
  (0 <= clamp_intensity x)%Q ∧ (clamp_intensity x <= 1)%Q.
Proof.
  destruct x as [q| | |]; cbn; try (split; discriminate).
  split.
  - apply Q.le_max_l.
  - apply Q.max_lub; [discriminate|apply Q.le_min_l].
Qed.

Lemma duty_of_range (r : Q) :
  (0 <= r)%Q → (r <= 1)%Q → 0 <= duty_of B r <= 65535.
Proof.
  intros H0 H1. unfold duty_of, Qtrunc.
  set (y := fround (fmt B) (r * inject_Z 65535)).
  assert (0 <= y)%Q as Hlo.
  { apply Qle_trans with (fround (fmt B) (inject_Z 0)).
    - rewrite fround_int by lia. apply Qle_refl.
    - apply fround_mono. apply Qmult_le_0_compat; [assumption|discriminate]. }
  assert (y <= inject_Z 65535)%Q as Hhi.
  { apply Qle_trans with (fround (fmt B) (inject_Z 65535)).
    - apply fround_mono. apply Qle_trans with (1 * inject_Z 65535)%Q.
      + apply Qmult_le_compat_r; [assumption|discriminate].
      + rewrite Qmult_1_l. apply Qle_refl.
    - rewrite fround_int by lia. apply Qle_refl. }
  destruct (Qlt_le_dec y 0) as [Hc|_];
    [exfalso; exact (Qlt_not_le _ _ Hc Hlo)|].
  split.
  - change 0 with (Qfloor 0). now apply Qfloor_resp_le.
  - rewrite <- (Qfloor_Z 65535). now apply Qfloor_resp_le.
Qed.

(** A property of the node state that [stop_vibe] and every accepted
    [buzz] keep is kept by the whole loop, to its end or to the
    exception that ends it. *)
Lemma main_loop_node_invariant (P : node_state → Prop) :
  (∀ s, P s → P (NodeState 0 (buzzer s) 0)) →
  (∀ s d b au, P s → 0 <= d <= 65535 → (b = false ∨ b = buzzer s) →
               P (NodeState d b au)) →
  ∀ evs w, P (node w) → P (node (final_world (main_loop B cfg evs w))).
Proof.
  intros Hstop Hbuzz.
  assert (∀ w, P (node w) → P (node (final_world (deadline_check B w)))) as Hcheck.
  { intros w Hw. destruct (deadline_check_cases w) as [->|[_ ->]]; cbn;
      [exact Hw|apply (Hstop (node w)); exact Hw]. }
  assert (∀ ev w, P (node w) → P (node (final_world (loop_body B cfg ev w)))) as Hbody.
  { intros ev w Hw. destruct ev as [n|n data src].
    - rewrite loop_body_timeout. apply Hcheck. exact Hw.
    - unfold loop_body, bind. rewrite receive_datagram. unfold try_except.
      set (wa := World (node w) (now w + Z.of_N n) (ifconfig_ip w) (link_up w)
                       (sent w) (console w)).
      destruct (handle_packet_cases (firstn 512 data) src wa)
        as [H|[H|[H|[(e & H & He)|[(ms & x & b & H)|[H|H]]]]]]; rewrite H.
      + apply Hcheck. exact Hw.
      + apply Hcheck. exact Hw.
      + apply Hcheck. exact Hw.
      + rewrite He. exact Hw.
      + apply Hcheck. cbn. apply (Hbuzz (node w)); [exact Hw| |destruct b; auto].
        destruct (clamp_intensity_range x). now apply duty_of_range.
      + apply Hcheck. cbn. apply (Hstop (node w)). exact Hw.
      + apply Hcheck. unfold pinged. destruct (link_up wa); exact Hw. }
  induction evs as [|ev rest IH]; intros w Hw; [exact Hw|].
  cbn [main_loop]. unfold bind.
  specialize (Hbody ev w Hw).
  destruct (loop_body B cfg ev w) as [[] w1|e w1]; cbn in Hbody.
  - apply IH. exact Hbody.
  - exact Hbody.
Qed.

(** The duty written to the PWM stays within 0..65535 through every run
    of the loop, whatever arrives, also when the run ends by an
    exception. *)
Theorem duty_stays_in_range :
  ∀ (evs : list recv_event) (w : world),
    0 <= duty (node w) <= 65535 →
    0 <= duty (node (final_world (main_loop B cfg evs w))) <= 65535.
Proof.
  intros evs w Hw.
  apply (main_loop_node_invariant (fun s => 0 <= duty s <= 65535)); cbn; auto; lia.
Qed.

(** The buzzer pin is low at every iteration boundary: no run of the
    loop, returning or raising, leaves it high. *)
Theorem buzzer_never_left_on :
  ∀ (evs : list recv_event) (w : world),
    buzzer (node w) = false →
    buzzer (node (final_world (main_loop B cfg evs w))) = false.
Proof.
  intros evs w Hw.
  apply (main_loop_node_invariant (fun s => buzzer s = false)); cbn; auto.
  intros s d b au Hs _ [->| ->]; auto.
Qed.

Lemma deadline_check_sent w :
  sent (final_world (deadline_check B w)) = sent w.
Proof. destruct (deadline_check_cases w) as [->|[_ ->]]; reflexivity. Qed.

Lemma loop_body_sent ev w :
  ∃ extra, sent (final_world (loop_body B cfg ev w)) = sent w ++ extra ∧
           (extra = [] ∨
            ∃ n data src w1, ev = Datagram n data src ∧
                             extra = [(JDict (reply cfg w1), src)]).
Proof.
  destruct ev as [n|n data src].
  - exists []. rewrite loop_body_timeout, deadline_check_sent. cbn.
    rewrite app_nil_r. auto.
  - unfold loop_body, bind. rewrite receive_datagram. unfold try_except.
    set (wa := World (node w) (now w + Z.of_N n) (ifconfig_ip w) (link_up w)
                     (sent w) (console w)).
    destruct (handle_packet_cases (firstn 512 data) src wa)
      as [H|[H|[H|[(e & H & He)|[(ms & x & b & H)|[H|H]]]]]]; rewrite H;
      try (exists []; rewrite ?He, ?deadline_check_sent; cbn;
           rewrite app_nil_r; auto; fail).
    unfold pinged. destruct (link_up wa) eqn:Hup.
    + exists [(JDict (reply cfg wa), src)]. rewrite deadline_check_sent. cbn.
      split; [reflexivity|]. right. exists n, data, src, wa. auto.
    + exists []. rewrite deadline_check_sent. cbn. rewrite app_nil_r. auto.
Qed.

(** The node speaks only when spoken to: through any run of the loop
    every datagram it sends is a reply of its own ([id], [ok] true)
    addressed to the sender of a datagram it received, and it sends at
    most one per datagram received. *)
Theorem replies_only_to_senders :
  ∀ (evs : list recv_event) (w : world),
    ∃ extra : list (json * addr),
      sent (final_world (main_loop B cfg evs w)) = sent w ++ extra ∧
      (length extra <= length (sources evs))%nat ∧
      Forall (fun d => In (snd d) (sources evs) ∧
                       ∃ w1, fst d = JDict (reply cfg w1)) extra.
Proof.
  induction evs as [|ev rest IH]; intros w.
  - exists []. cbn. rewrite app_nil_r. auto.
  - cbn [main_loop]. unfold bind.
    destruct (loop_body_sent ev w) as (ex1 & Hs1 & Hex1).
    assert ((length ex1 <= length (sources [ev]))%nat ∧
            Forall (fun d => In (snd d) (sources [ev]) ∧
                             ∃ w1, fst d = JDict (reply cfg w1)) ex1) as [Hlen1 Hall1].
    { destruct Hex1 as [->|(n & data & src & w1 & -> & ->)].
      - split; [cbn; lia|constructor].
      - split; [cbn; lia|]. constructor; [|constructor].
        split; [left; reflexivity|exists w1; reflexivity]. }
    assert (∀ l, sources (ev :: l) = sources [ev] ++ sources l) as Happ
      by (intros l; destruct ev; reflexivity).
    destruct (loop_body B cfg ev w) as [[] w1|e w1]; cbn in Hs1.
    + destruct (IH w1) as (ex2 & Hs2 & Hlen2 & Hall2).
      exists (ex1 ++ ex2). rewrite Hs2, Hs1, <- app_assoc. split; [reflexivity|].
      rewrite Happ, !length_app. split; [lia|].
      apply Forall_app. split.
      * eapply Forall_impl; [exact Hall1|]. cbn. intros d [Hin Hr].
        split; [apply in_or_app; now left|exact Hr].
      * eapply Forall_impl; [exact Hall2|]. cbn. intros d [Hin Hr].
        split; [apply in_or_app; now right|exact Hr].
    + exists ex1. rewrite Happ, length_app. cbn [final_world].
      split; [exact Hs1|]. split; [lia|].
      eapply Forall_impl; [exact Hall1|]. cbn. intros d [Hin Hr].
      split; [apply in_or_app; now left|exact Hr].
Qed.

Lemma ticks_diff_add (t0 d t : Z) :
  - 2 ^ 29 <= t0 + d - t < 2 ^ 29 →
  ticks_diff (ticks_add (ticks_of t0) d) (ticks_of t) = t0 + d - t.
Proof.
  intros H. unfold ticks_diff, ticks_add, ticks_of, TICKS_PERIOD.
  change (2 ^ 30 / 2) with (2 ^ 29).
  rewrite Z.add_mod_idemp_l by lia.
  replace ((t0 + d) mod 2 ^ 30 - t mod 2 ^ 30 + 2 ^ 29)
    with ((t0 + d) mod 2 ^ 30 + (2 ^ 29 - t mod 2 ^ 30)) by lia.
  rewrite Z.add_mod_idemp_l by lia.
  replace (t0 + d + (2 ^ 29 - t mod 2 ^ 30))
    with (t0 + d + 2 ^ 29 - t mod 2 ^ 30) by lia.
  rewrite Zminus_mod_idemp_r.
  rewrite Z.mod_small; lia.
Qed.

Lemma same_but_clock s (n1 n2 : Z) ip up out log :
  n1 = n2 → Ok tt (World s n1 ip up out log) = Ok tt (World s n2 ip up out log).
Proof. intros ->. reflexivity. Qed.

Ltac same_world :=
  unfold advance, stopped, with_node; cbn; apply same_but_clock; lia.

Lemma total_wait_nonneg ns : 0 <= total_wait ns.
Proof. unfold total_wait. induction ns; cbn [fold_right]; lia. Qed.

Lemma idle_run_stopped ns w :
  active_until_ms (node w) = 0 →
  main_loop B cfg (map Timeout ns) w = Ok tt (advance (total_wait ns) w).
Proof.
  revert w. induction ns as [|k ns IH]; intros w Hz.
  - cbn. unfold ret. destruct w. same_world.
  - cbn [map main_loop]. unfold bind. rewrite loop_body_timeout.
    unfold deadline_check, bind, get_active_until_ms. cbn [node].
    rewrite Hz. cbn [Z.eqb ret]. rewrite IH by exact Hz.
    change (total_wait (k :: ns)) with (Z.of_N k + total_wait ns).
    same_world.
Qed.

(** Idle iterations while a deadline [d] after [t0] is running: the node
    is untouched before the deadline and stopped from it on. *)
Lemma idle_run_active ns : ∀ w t0 d,
  Forall (fun k => Z.of_N k < 2 ^ 29) ns →
  0 <= d <= 10000 →
  active_until_ms (node w) = ticks_add (ticks_of t0) d →
  active_until_ms (node w) ≠ 0 →
  t0 <= now w < t0 + d →
  main_loop B cfg (map Timeout ns) w
  = Ok tt (advance (total_wait ns)
             (if now w + total_wait ns <? t0 + d then w else stopped w)).
Proof.
  induction ns as [|k ns IH]; intros w t0 d Hns Hd Hau Hnz Hnow.
  - cbn. unfold ret. destruct (Z.ltb_spec (now w + 0) (t0 + d)); [|lia].
    destruct w. same_world.
  - inversion Hns as [|? ? Hk Hrest]; subst.
    cbn [map main_loop].
    change (total_wait (k :: ns)) with (Z.of_N k + total_wait ns).
    unfold bind. rewrite loop_body_timeout.
    unfold deadline_check, bind, get_active_until_ms, ticks_ms. cbn [node now].
    destruct (Z.eqb_spec (active_until_ms (node w)) 0) as [Hc|_]; [contradiction|].
    rewrite Hau. cbn [now]. rewrite ticks_diff_add by lia.
    destruct (Z.leb_spec (t0 + d - (now w + Z.of_N k)) 0) as [Hle|Hgt].
    + rewrite stop_vibe_eq.
      rewrite idle_run_stopped by reflexivity.
      destruct (Z.ltb_spec (now w + (Z.of_N k + total_wait ns)) (t0 + d)) as [Hlt|_].
      * exfalso. pose proof (total_wait_nonneg ns). lia.
      * same_world.
    + unfold ret. cbv beta iota.
      rewrite (IH _ t0 d Hrest Hd); cbn [node now]; try assumption; try lia.
      replace (now w + Z.of_N k + total_wait ns)
        with (now w + (Z.of_N k + total_wait ns)) by lia.
      destruct (_ <? _); same_world.
Qed.

(** Auto-stop: after an accepted [buzz] whose deadline is not the tick
    value 0, with nothing but timeouts following (each shorter than half
    the tick period), the output keeps the commanded duty as long as the
    time since the command is below the clamped duration, and is zero
    with the deadline cleared once it is reached. *)
Theorem auto_stop_after_duration :
  ∀ (n : N) (data : list Byte.byte) (src : addr) (ms : Z) (x : pyfloat) (b : bool)
    (ns : list N) (w : world),
    buzz_command B cfg (firstn 512 data) ms x b →
    ticks_add (ticks_of (now w + Z.of_N n)) (clamp_ms ms) ≠ 0 →
    Forall (fun k => Z.of_N k < 2 ^ 29) ns →
    ∃ w', main_loop B cfg (Datagram n data src :: map Timeout ns) w = Ok tt w' ∧
          now w' = now w + Z.of_N n + (if b then 120 else 0) + total_wait ns ∧
          ((if b then 120 else 0) + total_wait ns < clamp_ms ms →
           duty (node w') = duty_of B (clamp_intensity x) ∧
           active_until_ms (node w')
             = ticks_add (ticks_of (now w + Z.of_N n)) (clamp_ms ms)) ∧
          (clamp_ms ms <= (if b then 120 else 0) + total_wait ns →
           duty (node w') = 0 ∧ active_until_ms (node w') = 0).
Proof.
  intros n data src ms x b ns w Hb Hnz Hns.
  pose proof (clamp_ms_range ms) as Hd.
  pose proof (total_wait_nonneg ns) as Htot.
  cbn [main_loop]. unfold bind at 1, loop_body. unfold bind at 1.
  rewrite receive_datagram. unfold try_except.
  rewrite (handle_packet_buzz _ _ _ _ _ _ _ _ Hb).
  set (wa := World (node w) (now w + Z.of_N n) (ifconfig_ip w) (link_up w)
                   (sent w) (console w)) in *.
  set (bd := if b then 120 else 0).
  assert (0 <= bd <= 120) as Hbd by (subst bd; destruct b; lia).
  assert (now (buzzed B ms x b wa) = now w + Z.of_N n + bd) as Hclock
    by (subst bd; destruct b; cbn; lia).
  unfold deadline_check, bind, get_active_until_ms, ticks_ms.
  change (active_until_ms (node (buzzed B ms x b wa)))
    with (ticks_add (ticks_of (now w + Z.of_N n)) (clamp_ms ms)).
  destruct (Z.eqb_spec (ticks_add (ticks_of (now w + Z.of_N n)) (clamp_ms ms)) 0)
    as [Hc|_]; [contradiction|].
  rewrite Hclock, ticks_diff_add by lia.
  destruct (Z.leb_spec (now w + Z.of_N n + clamp_ms ms - (now w + Z.of_N n + bd)) 0)
    as [Hle|Hgt].
  - rewrite stop_vibe_eq. cbv beta iota.
    rewrite idle_run_stopped by reflexivity.
    eexists. split; [reflexivity|].
    unfold advance, stopped, with_node. cbn [now node duty active_until_ms].
    rewrite Hclock. split; [lia|]. split; [intros; lia|auto].
  - unfold ret. cbv beta iota.
    rewrite (idle_run_active ns _ (now w + Z.of_N n) (clamp_ms ms));
      try assumption; try reflexivity; [|rewrite Hclock; lia].
    eexists. split; [reflexivity|].
    rewrite Hclock.
    destruct (Z.ltb_spec (now w + Z.of_N n + bd + total_wait ns)
                         (now w + Z.of_N n + clamp_ms ms)) as [Hlt|Hge];
      unfold advance, stopped, with_node; cbn [now node duty active_until_ms];
      rewrite ?Hclock.
    + split; [lia|]. split; [intros _; split; reflexivity|intros; lia].
    + split; [lia|]. split; [intros; lia|auto].
Qed.

End NodeMore.

(** ** Start-up of the node *)

Section StartupFacts.
Context (B : builtins).

(** With a [config.json] that cannot be opened or does not decode, and
    with one that decodes to an object holding [ssid] and [password] but
    none of [udp_port], [device_id] and [token], every read of the
    configuration at start-up succeeds: the port is 5005, the id
    [haptic01], the token [change-me], and the Wi-Fi name and password
    are the built-in ones in the first two cases and those of the file
    in the third. *)
Theorem load_cfg_falls_back :
  ∀ (file : option (list Byte.byte)) (ssid password : json),
    (file = None ∧ ssid = JStr "Deniz" ∧ password = JStr "13711353") ∨
    (∃ c, file = Some c ∧ loads B c = None ∧
          ssid = JStr "Deniz" ∧ password = JStr "13711353") ∨
    (∃ c d, file = Some c ∧ loads B c = Some (JDict d) ∧
            d !! "udp_port"%string = None ∧ d !! "device_id"%string = None ∧
            d !! "token"%string = None ∧
            d !! "ssid"%string = Some ssid ∧ d !! "password"%string = Some password) →
    startup_reads B (load_cfg B file)
    = inr (5005, JStr "haptic01", JStr "change-me", ssid, password).
Proof.
  intros file ssid password
    [(-> & -> & ->)|[(c & -> & Hl & -> & ->)
                    |(c & d & -> & Hl & Hp & Hd & Ht & Hs & Hw)]];
    unfold load_cfg; rewrite ?Hl.
  - reflexivity.
  - reflexivity.
  - unfold startup_reads, settings, subscript. cbn [get].
    rewrite Hp, Hd, Ht, Hs, Hw. reflexivity.
Qed.

(** A [config.json] whose object lacks [ssid] or [password] is not
    rescued by the fallback: once the three settings are read, start-up
    raises [KeyError] at the call of [wifi_connect]. *)
Theorem config_without_wifi_keys_fails_startup :
  ∀ (c : list Byte.byte) (d : gmap string json) (s : Z * json * json),
    loads B c = Some (JDict d) →
    settings B (JDict d) = inr s →
    d !! "ssid"%string = None ∨ d !! "password"%string = None →
    startup_reads B (load_cfg B (Some c)) = inl KeyError.
Proof.
  intros c d [[port dev] tok] Hl Hs Hmiss. unfold load_cfg. rewrite Hl.
  unfold startup_reads. rewrite Hs. unfold subscript.
  destruct (d !! "ssid"%string) as [v|]; [|reflexivity].
  destruct Hmiss as [Hm|Hm]; [discriminate Hm|]. rewrite Hm. reflexivity.
Qed.

(** A [config.json] that holds valid JSON which is not an object is not
    caught by [load_cfg]: reading the settings raises [AttributeError]
    before the loop starts. *)
Theorem non_object_config_fails_startup :
  ∀ (c : list Byte.byte) (v : json),
    loads B c = Some v →
    (∀ d, v ≠ JDict d) →
    settings B (load_cfg B (Some c)) = inl AttributeError.
Proof.
  intros c v Hl Hv. unfold load_cfg. rewrite Hl.
  destruct v; try reflexivity. exfalso. eapply Hv. reflexivity.
Qed.

End StartupFacts.

(** ** Further properties of the controller *)

Section ClientMore.

Lemma testbit_all_ones (n : Z) : 0 <= n → Z.testbit ALL_ONES n = (n <? 32).
Proof.
  intros Hn. change ALL_ONES with (Z.ones 32).
  destruct (Z.ltb_spec n 32).
  - apply Z.ones_spec_low. lia.
  - apply Z.ones_spec_high. lia.
Qed.

Lemma testbit_above (m n : Z) :
  0 <= m <= ALL_ONES → 32 <= n → Z.testbit m n = false.
Proof.
  intros Hm Hn. destruct (Z.eq_dec m 0) as [->|Hz]; [apply Z.bits_0|].
  apply Z.bits_above_log2; [lia|].
  assert (Z.log2 m < 32); [|lia].
  apply Z.log2_lt_pow2; [lia|]. unfold ALL_ONES in Hm. lia.
Qed.

Lemma in_range_of_bits (b : Z) :
  0 <= b → (∀ n, 32 <= n → Z.testbit b n = false) → 0 <= b <= ALL_ONES.
Proof.
  intros Hb Hhigh. split; [assumption|].
  assert (b = b mod 2 ^ 32) as Heq.
  { rewrite <- Z.land_ones by lia. apply Z.bits_inj'. intros n Hn.
    rewrite Z.land_spec. change (Z.ones 32) with ALL_ONES.
    rewrite testbit_all_ones by assumption.
    destruct (Z.ltb_spec n 32).
    - now rewrite andb_true_r.
    - rewrite Hhigh by assumption. reflexivity. }
  pose proof (Z.mod_pos_bound b (2 ^ 32) ltac:(lia)). unfold ALL_ONES. lia.
Qed.

(** The arithmetic of [calc_broadcast] on 32-bit operands. *)
Lemma broadcast_bits (ip m : Z) :
  0 <= ip <= ALL_ONES → 0 <= m <= ALL_ONES →
  let b := Z.lor (Z.land ip m) (Z.lxor m ALL_ONES) in
  0 <= b <= ALL_ONES ∧ Z.land b m = Z.land ip m ∧ Z.lor b m = ALL_ONES.
Proof.
  intros Hip Hm b. subst b. split; [|split].
  - apply in_range_of_bits.
    + apply Z.lor_nonneg. split.
      * apply Z.land_nonneg. left. lia.
      * apply Z.lxor_nonneg. unfold ALL_ONES. split; intros; lia.
    + intros n Hn.
      rewrite Z.lor_spec, Z.land_spec, Z.lxor_spec, testbit_all_ones by lia.
      rewrite (testbit_above m n Hm Hn), (testbit_above ip n Hip Hn).
      destruct (Z.ltb_spec n 32); [lia|reflexivity].
  - apply Z.bits_inj'. intros n Hn.
    rewrite !Z.land_spec, Z.lor_spec, Z.land_spec, Z.lxor_spec,
      testbit_all_ones by assumption.
    destruct (Z.ltb_spec n 32).
    + destruct (Z.testbit ip n), (Z.testbit m n); reflexivity.
    + rewrite (testbit_above m n Hm) by assumption.
      destruct (Z.testbit ip n); reflexivity.
  - apply Z.bits_inj'. intros n Hn.
    rewrite !Z.lor_spec, Z.land_spec, Z.lxor_spec, !testbit_all_ones by assumption.
    destruct (Z.ltb_spec n 32).
    + destruct (Z.testbit ip n), (Z.testbit m n); reflexivity.
    + rewrite (testbit_above m n Hm) by assumption.
      destruct (Z.testbit ip n); reflexivity.
Qed.

Lemma calc_broadcast_netmask (ip p : Z) :
  0 <= ip <= ALL_ONES → 0 <= p <= 32 →
  calc_broadcast ip (MaskQuad (ip_int_from_prefix p))
  = inr (Z.lor (Z.land ip (ip_int_from_prefix p))
               (Z.lxor (ip_int_from_prefix p) ALL_ONES)).
Proof.
  intros Hip Hp. unfold calc_broadcast, make_netmask.
  pose proof (netmask_range p Hp) as Hr.
  replace ((0 <=? ip) && (ip <=? ALL_ONES)) with true
    by (symmetry; apply andb_true_iff; split; apply Z.leb_le; lia).
  replace ((0 <=? ip_int_from_prefix p) && (ip_int_from_prefix p <=? ALL_ONES)) with true
    by (symmetry; apply andb_true_iff; split; apply Z.leb_le; lia).
  cbn [negb]. rewrite (prefix_of_netmask p Hp). reflexivity.
Qed.

(** The computed broadcast address is a 32-bit address of the same
    network as the base address, has every host bit set, and is its own
    broadcast address. *)
Theorem broadcast_is_top_of_network :
  ∀ (ip mask b : Z),
    0 <= ip <= ALL_ONES →
    is_netmask mask →
    calc_broadcast ip (MaskQuad mask) = inr b →
    0 <= b <= ALL_ONES ∧
    Z.land b mask = Z.land ip mask ∧
    Z.lor b mask = ALL_ONES ∧
    calc_broadcast b (MaskQuad mask) = inr b.
Proof.
  intros ip mask b Hip (p & Hp & ->) Hb.
  rewrite calc_broadcast_netmask in Hb by assumption. injection Hb as <-.
  pose proof (netmask_range p Hp) as Hr.
  destruct (broadcast_bits ip (ip_int_from_prefix p) Hip Hr) as (Hrange & Hnet & Hhost).
  repeat split; try assumption; try apply Hrange.
  rewrite calc_broadcast_netmask by assumption. rewrite Hnet. reflexivity.
Qed.

(** The prefix lengths checked one by one. *)
Lemma for_each_prefix (f : Z → bool) :
  forallb f (map Z.of_nat (seq 0 33)) = true →
  ∀ p, 0 <= p <= 32 → f p = true.
Proof.
  intros Hall p Hp. rewrite forallb_forall in Hall. apply Hall.
  apply in_map_iff. exists (Z.to_nat p). split; [lia|]. apply in_seq. lia.
Qed.

(** A mask may be spelled as a prefix length, as a dotted netmask or,
    for prefix lengths 1 to 31, as a dotted host mask: all three give
    the same broadcast address. *)
Theorem mask_spellings_agree :
  ∀ (ip p : Z),
    0 <= p <= 32 →
    calc_broadcast ip (MaskQuad (ip_int_from_prefix p))
    = calc_broadcast ip (MaskPrefix p) ∧
    (0 < p < 32 →
     calc_broadcast ip (MaskQuad (Z.lxor (ip_int_from_prefix p) ALL_ONES))
     = calc_broadcast ip (MaskPrefix p)).
Proof.
  intros ip p Hp.
  assert (make_netmask (MaskPrefix p) = Some p) as Hpre.
  { unfold make_netmask.
    replace ((0 <=? p) && (p <=? 32)) with true
      by (symmetry; apply andb_true_iff; split; apply Z.leb_le; lia).
    reflexivity. }
  assert (make_netmask (MaskQuad (ip_int_from_prefix p)) = Some p) as Hquad.
  { unfold make_netmask. pose proof (netmask_range p Hp) as Hr.
    replace ((0 <=? ip_int_from_prefix p) && (ip_int_from_prefix p <=? ALL_ONES)) with true
      by (symmetry; apply andb_true_iff; split; apply Z.leb_le; lia).
    apply prefix_of_netmask. exact Hp. }
  split.
  - unfold calc_broadcast. rewrite Hpre, Hquad. reflexivity.
  - intros Hp'.
    assert (make_netmask (MaskQuad (Z.lxor (ip_int_from_prefix p) ALL_ONES)) = Some p)
      as Hhost.
    { pose proof (for_each_prefix
        (fun q => (q =? 0) || (q =? 32) ||
                  match make_netmask (MaskQuad (Z.lxor (ip_int_from_prefix q) ALL_ONES)) with
                  | Some r => r =? q
                  | None => false
                  end) ltac:(vm_compute; reflexivity) p Hp) as Hall.
      cbv beta in Hall.
      replace (p =? 0) with false in Hall by (symmetry; apply Z.eqb_neq; lia).
      replace (p =? 32) with false in Hall by (symmetry; apply Z.eqb_neq; lia).
      cbn [orb] in Hall.
      destruct (make_netmask (MaskQuad (Z.lxor (ip_int_from_prefix p) ALL_ONES)))
        as [r|]; [|discriminate Hall].
      f_equal. now apply Z.eqb_eq. }
    unfold calc_broadcast. rewrite Hpre, Hhost. reflexivity.
Qed.

Lemma collect_some_spec (t0 wait_s : Q) (trace : list (Q * recv_outcome)) :
  ∀ (acc found : gmap string string),
    collect t0 wait_s trace acc = Some found →
    ∀ a, found !! a = match last_reply a (window t0 wait_s trace) with
                      | Some x => Some x
                      | None => acc !! a
                      end.
Proof.
  induction trace as [|[t r] rest IH]; intros acc found Hc a.
  - discriminate Hc.
  - cbn [collect window] in *. destruct (Qlt_le_dec (t - t0) wait_s) as [Hlt|Hge].
    + rewrite (IH _ _ Hc a). cbn [last_reply].
      destruct (last_reply a (window t0 wait_s rest)); [reflexivity|].
      destruct r as [|resp from]; [reflexivity|].
      destruct (decide (fst from = a)) as [<-|Hne].
      * apply lookup_insert_eq.
      * now apply lookup_insert_ne.
    + injection Hc as <-. reflexivity.
Qed.

Lemma no_reply_iff (l : list recv_outcome) :
  (∀ a, last_reply a l = None) ↔ Forall (fun o => o = RTimeout) l.
Proof.
  induction l as [|r rest IH].
  - split; [constructor|reflexivity].
  - split.
    + intros H. destruct r as [|resp from].
      * constructor; [reflexivity|]. apply IH. intros a. specialize (H a).
        cbn in H. destruct (last_reply a rest); [discriminate H|reflexivity].
      * exfalso. specialize (H (fst from)). cbn in H.
        destruct (last_reply (fst from) rest); [discriminate H|].
        destruct (decide (fst from = fst from)); [discriminate H|congruence].
    + intros H a. inversion H as [|? ? -> Hrest]; subst. cbn.
      rewrite (proj2 IH Hrest a). reflexivity.
Qed.

(** The exit status is 1 exactly for a [broadcast-ping] whose wait
    window brought no reply; every other run that ends normally, a
    unicast [ping] without reply included, exits with 0. *)
Theorem exit_status_tells_empty_discovery :
  ∀ (a : args) (rx : recv_outcome) (t0 : Q) (trace : list (Q * recv_outcome)) (r : run),
    main a rx t0 trace = Some (inr r) →
    (status r = 0 ∨ status r = 1) ∧
    (status r = 1 ↔
     ∃ wait, arg_cmd a = SubBroadcastPing wait ∧
             Forall (fun o => o = RTimeout) (window t0 wait trace)).
Proof.
  intros a rx t0 trace r. unfold main.
  destruct (arg_cmd a) as [|ms x b| |wait|ms x b] eqn:Hcmd.
  - cbn. intros [= <-]. cbn. split; [auto|].
    split; [discriminate|intros (? & ? & _); discriminate].
  - cbn. intros [= <-]. cbn. split; [auto|].
    split; [discriminate|intros (? & ? & _); discriminate].
  - cbn. intros [= <-]. cbn. split; [auto|].
    split; [discriminate|intros (? & ? & _); discriminate].
  - unfold discover.
    destruct (calc_broadcast (arg_ip a) (arg_mask a)) as [e|bcast]; [discriminate|].
    destruct (Qlt_le_dec wait 0) as [Hneg|_]; [discriminate|].
    destruct (collect t0 wait trace ∅) as [found|] eqn:Hc; [|discriminate].
    pose proof (collect_some_spec _ _ _ _ _ Hc) as Hf.
    assert (found = ∅ ↔ Forall (fun o => o = RTimeout) (window t0 wait trace)) as Hiff.
    { rewrite <- no_reply_iff, map_empty. split; intros H k; specialize (H k);
        specialize (Hf k); rewrite lookup_empty in Hf;
        destruct (last_reply k (window t0 wait trace)); congruence. }
    destruct (decide (map_to_list found = [])) as [He|Hne].
    + intros [= <-]. cbn. split; [auto|]. split; [|reflexivity].
      intros _. exists wait. split; [reflexivity|].
      apply Hiff, map_to_list_empty_iff, He.
    + intros [= <-]. cbn. split; [auto|]. split; [discriminate|].
      intros (wait' & [= <-] & Hall). exfalso. apply Hne.
      apply map_to_list_empty_iff, Hiff, Hall.
  - destruct (calc_broadcast (arg_ip a) (arg_mask a)) as [e|bcast]; [discriminate|].
    cbn. intros [= <-]. cbn. split; [auto|].
    split; [discriminate|intros (? & ? & _); discriminate].
Qed.

End ClientMore.

(** ** The controller and the node together *)

Section Together.
Context (B : builtins) (cfg : config).

Lemma add_target_other (tgt : option string) (p : gmap string json) (k : string) :
  k ≠ "target"%string → add_target tgt p !! k = p !! k.
Proof.
  intros Hk. destruct tgt as [[|c s]|]; cbn; try reflexivity.
  apply lookup_insert_ne. congruence.
Qed.

Lemma add_beep_other (b : bool) (p : gmap string json) (k : string) :
  k ≠ "beep"%string → add_beep b p !! k = p !! k.
Proof.
  intros Hk. destruct b; cbn; try reflexivity.
  apply lookup_insert_ne. congruence.
Qed.

Lemma add_beep_truth (b : bool) (p : gmap string json) :
  p !! "beep"%string = None →
  truthy (default JNull (add_beep b p !! "beep"%string)) = b.
Proof.
  intros Hp. destruct b; cbn.
  - rewrite lookup_insert_eq. reflexivity.
  - rewrite Hp. reflexivity.
Qed.

(** A target that is absent, empty or the node's own id passes. *)
Lemma add_target_passes (tgt : option string) (p : gmap string json) :
  p !! "target"%string = None →
  (tgt = None ∨ tgt = Some EmptyString ∨ tgt = Some (DEVICE_ID cfg)) →
  add_target tgt p !! "target"%string = None ∨
  add_target tgt p !! "target"%string = Some (JStr (DEVICE_ID cfg)).
Proof.
  intros Hp [->|[->| ->]]; cbn; auto.
  destruct (DEVICE_ID cfg) as [|c s]; cbn; auto.
  right. apply lookup_insert_eq.
Qed.

Lemma add_target_authorised (tgt : option string) (p : gmap string json) :
  p !! "token"%string = Some (JStr (TOKEN cfg)) →
  p !! "target"%string = None →
  (tgt = None ∨ tgt = Some EmptyString ∨ tgt = Some (DEVICE_ID cfg)) →
  authorised cfg (add_target tgt p).
Proof.
  intros Htok Hp Htgt. split.
  - rewrite add_target_other by discriminate. exact Htok.
  - now apply add_target_passes.
Qed.

Lemma wire_buzz_accepted data ms x beep tgt :
  loads B data
  = Some (JDict (add_target tgt (add_beep beep (buzz_payload ms x (TOKEN cfg))))) →
  (tgt = None ∨ tgt = Some EmptyString ∨ tgt = Some (DEVICE_ID cfg)) →
  x ≠ FNaN →
  buzz_command B cfg data ms x beep.
Proof.
  intros Hl Htgt Hx. eexists. split; [exact Hl|]. split.
  { apply add_target_authorised; [| |exact Htgt];
      rewrite add_beep_other by discriminate; reflexivity. }
  split.
  { rewrite add_target_other, add_beep_other by discriminate. reflexivity. }
  split.
  { rewrite add_target_other, add_beep_other by discriminate. reflexivity. }
  split.
  { rewrite add_target_other, add_beep_other by discriminate. reflexivity. }
  split; [exact Hx|].
  rewrite add_target_other by discriminate. apply add_beep_truth. reflexivity.
Qed.

(** A unicast [buzz] of the controller, decoded by a node that has the
    same token and is not excluded by the target, makes that node
    vibrate with the clamped values; the datagram goes to the given
    address and port. *)
Theorem controller_buzz_drives_node :
  ∀ (a : args) (ms : Z) (x : pyfloat) (beep : bool) (rx : recv_outcome) (t0 : Q)
    (trace : list (Q * recv_outcome)) (r : run) (p : json) (dst : Z * Z) (bc : bool)
    (data : list Byte.byte) (src : addr) (w : world),
    arg_cmd a = SubBuzz ms x beep →
    main a rx t0 trace = Some (inr r) →
    In (p, dst, bc) (sends r) →
    loads B data = Some p →
    arg_token a = TOKEN cfg →
    (arg_target a = None ∨ arg_target a = Some EmptyString ∨
     arg_target a = Some (DEVICE_ID cfg)) →
    x ≠ FNaN →
    dst = (arg_ip a, arg_port a) ∧ bc = false ∧
    handle_packet B cfg data src w = Ok tt (buzzed B ms x beep w).
Proof.
  intros a ms x beep rx t0 trace r p dst bc data src w Hcmd Hmain Hin Hl Htok Htgt Hx.
  unfold main, send_json in Hmain. rewrite Hcmd in Hmain.
  cbv beta iota zeta in Hmain. injection Hmain as <-.
  cbn [sends In] in Hin. destruct Hin as [[= <- <- <-]|[]].
  split; [reflexivity|]. split; [reflexivity|].
  apply handle_packet_buzz.
  apply (wire_buzz_accepted data ms x beep (arg_target a)); try assumption.
  rewrite <- Htok. exact Hl.
Qed.

(** [broadcast-buzz] carries no target, whatever [--target] says: every
    node that has the token vibrates, whatever its id. *)
Theorem broadcast_buzz_reaches_every_node :
  ∀ (a : args) (ms : Z) (x : pyfloat) (beep : bool) (rx : recv_outcome) (t0 : Q)
    (trace : list (Q * recv_outcome)) (r : run) (p : json) (dst : Z * Z) (bc : bool)
    (data : list Byte.byte) (src : addr) (w : world),
    arg_cmd a = SubBroadcastBuzz ms x beep →
    main a rx t0 trace = Some (inr r) →
    In (p, dst, bc) (sends r) →
    loads B data = Some p →
    arg_token a = TOKEN cfg →
    x ≠ FNaN →
    calc_broadcast (arg_ip a) (arg_mask a) = inr (fst dst) ∧
    snd dst = arg_port a ∧ bc = true ∧
    handle_packet B cfg data src w = Ok tt (buzzed B ms x beep w).
Proof.
  intros a ms x beep rx t0 trace r p dst bc data src w Hcmd Hmain Hin Hl Htok Hx.
  unfold main, send_json in Hmain. rewrite Hcmd in Hmain.
  destruct (calc_broadcast (arg_ip a) (arg_mask a)) as [e|bcast];
    [discriminate Hmain|].
  cbv beta iota zeta in Hmain. injection Hmain as <-.
  cbn [sends In] in Hin. destruct Hin as [[= <- <- <-]|[]].
  split; [reflexivity|]. split; [reflexivity|]. split; [reflexivity|].
  apply handle_packet_buzz.
  apply (wire_buzz_accepted data ms x beep None); auto.
  rewrite <- Htok. exact Hl.
Qed.

(** A [ping] of the controller, unicast to a node the target does not
    exclude or broadcast by the discovery, is answered by every node
    that decodes it and has the token. *)
Theorem controller_ping_is_answered :
  ∀ (a : args) (rx : recv_outcome) (t0 : Q) (trace : list (Q * recv_outcome))
    (r : run) (p : json) (dst : Z * Z) (bc : bool)
    (data : list Byte.byte) (src : addr) (w : world),
    (arg_cmd a = SubPing ∧
     (arg_target a = None ∨ arg_target a = Some EmptyString ∨
      arg_target a = Some (DEVICE_ID cfg))) ∨
    (∃ wait, arg_cmd a = SubBroadcastPing wait) →
    main a rx t0 trace = Some (inr r) →
    In (p, dst, bc) (sends r) →
    loads B data = Some p →
    arg_token a = TOKEN cfg →
    handle_packet B cfg data src w = Ok tt (pinged cfg src w).
Proof.
  intros a rx t0 trace r p dst bc data src w Hcmd Hmain Hin Hl Htok.
  apply handle_packet_ping.
  unfold main, send_json in Hmain.
  destruct Hcmd as [[Hcmd Htgt]|[wait Hcmd]]; rewrite Hcmd in Hmain.
  - cbv beta iota zeta in Hmain. injection Hmain as <-.
    cbn [sends In] in Hin. destruct Hin as [[= <- <- <-]|[]].
    eexists. split; [exact Hl|]. split.
    + apply add_target_authorised; [| |exact Htgt]; rewrite Htok; reflexivity.
    + rewrite add_target_other by discriminate. reflexivity.
  - destruct (discover (arg_mask a) (arg_ip a) wait t0 trace)
      as [[e|[bcast found]]|]; try discriminate Hmain.
    destruct (decide (map_to_list found = [])); injection Hmain as <-;
      cbn [sends In] in Hin; destruct Hin as [[= <- <- <-]|[]];
      (eexists; split; [exact Hl|]; split;
       [split; [rewrite Htok; reflexivity|left; reflexivity]|reflexivity]).
Qed.

(** A unicast [stop] of the controller stops the node it is meant for. *)
Theorem controller_stop_stops_node :
  ∀ (a : args) (rx : recv_outcome) (t0 : Q) (trace : list (Q * recv_outcome))
    (r : run) (p : json) (dst : Z * Z) (bc : bool)
    (data : list Byte.byte) (src : addr) (w : world),
    arg_cmd a = SubStop →
    main a rx t0 trace = Some (inr r) →
    In (p, dst, bc) (sends r) →
    loads B data = Some p →
    arg_token a = TOKEN cfg →
    (arg_target a = None ∨ arg_target a = Some EmptyString ∨
     arg_target a = Some (DEVICE_ID cfg)) →
    handle_packet B cfg data src w = Ok tt (stopped w).
Proof.
  intros a rx t0 trace r p dst bc data src w Hcmd Hmain Hin Hl Htok Htgt.
  unfold main, send_json in Hmain. rewrite Hcmd in Hmain.
  cbv beta iota zeta in Hmain. injection Hmain as <-.
  cbn [sends In] in Hin. destruct Hin as [[= <- <- <-]|[]].
  rewrite (handle_packet_dict _ _ _ _ _ _ Hl). cbn zeta.
  assert (authorised cfg
            (add_target (arg_target a)
               {[ "cmd"%string := JStr "stop"; "token"%string := JStr (arg_token a) ]}))
    as Hauth.
  { apply add_target_authorised; [| |exact Htgt]; rewrite Htok; reflexivity. }
  destruct (authorised_passes _ _ Hauth) as [-> ->].
  rewrite add_target_other by discriminate.
  change ({[ "cmd"%string := JStr "stop"; "token"%string := JStr (arg_token a) ]}
            !! "cmd"%string) with (Some (JStr "stop")).
  cbn [default from_option id eq_str].
  rewrite bool_decide_eq_false_2 by discriminate.
  rewrite bool_decide_eq_true_2 by reflexivity.
  apply stop_vibe_eq.
Qed.

(** Addressing works: a unicast command of the controller that names
    another node is ignored by a node with the token, leaving it as it
    was and unanswered. *)
Theorem controller_command_for_other_node_is_ignored :
  ∀ (a : args) (s : string) (rx : recv_outcome) (t0 : Q)
    (trace : list (Q * recv_outcome)) (r : run) (p : json) (dst : Z * Z) (bc : bool)
    (data : list Byte.byte) (src : addr) (w : world),
    (arg_cmd a = SubPing ∨ arg_cmd a = SubStop ∨
     ∃ ms x beep, arg_cmd a = SubBuzz ms x beep) →
    arg_target a = Some s →
    s ≠ EmptyString →
    s ≠ DEVICE_ID cfg →
    main a rx t0 trace = Some (inr r) →
    In (p, dst, bc) (sends r) →
    loads B data = Some p →
    arg_token a = TOKEN cfg →
    handle_packet B cfg data src w = Ok tt w.
Proof.
  intros a s rx t0 trace r p dst bc data src w Hcmd Htgt Hne Hdev Hmain Hin Hl Htok.
  assert (∀ q : gmap string json,
            q !! "token"%string = Some (JStr (TOKEN cfg)) →
            loads B data = Some (JDict (add_target (Some s) q)) →
            handle_packet B cfg data src w = Ok tt w) as Hign.
  { intros q Hq Hlq.
    apply (handle_packet_foreign_target B cfg data _ (JStr s) src w Hlq).
    - rewrite add_target_other by discriminate. exact Hq.
    - destruct s as [|ch s']; [congruence|]. cbn. apply lookup_insert_eq.
    - destruct s; [congruence|reflexivity].
    - congruence. }
  unfold main, send_json in Hmain. rewrite Htgt in Hmain.
  destruct Hcmd as [Hcmd|[Hcmd|(ms & x & beep & Hcmd)]]; rewrite Hcmd in Hmain;
    cbv beta iota zeta in Hmain; injection Hmain as <-;
    cbn [sends In] in Hin; destruct Hin as [[= <- <- <-]|[]];
    (eapply Hign; [|exact Hl]).
  - rewrite Htok. reflexivity.
  - rewrite Htok. reflexivity.
  - rewrite add_beep_other by discriminate. rewrite Htok. reflexivity.
Qed.

End Together.

(** ** The claims on concrete inputs *)

Section Instances.
Import Fixtures.

Lemma C1_conversion_error_ends_loop_witness :
  main_loop B0 cfg0 (Datagram 3 p_buzz_null peer :: [Timeout 4]) w0
  = Raise TypeError (World (node w0) (now w0 + Z.of_N 3) (ifconfig_ip w0) (link_up w0)
                           (sent w0) (console w0)).
Proof.
  apply (C1_conversion_error_ends_loop B0 cfg0 3%N p_buzz_null peer [Timeout 4]
           m_buzz_null TypeError w0).
  - reflexivity.
  - split; [reflexivity|left; reflexivity].
  - reflexivity.
  - reflexivity.
Defined.

Lemma C2_buzz_clamps_witness :
  ∃ w', handle_packet B0 cfg0 p_buzz peer w0 = Ok tt w' ∧
        duty (node w') = duty_of B0 (clamp_intensity (FFin (17 # 10))) ∧
        active_until_ms (node w') = ticks_add (ticks_of (now w0)) (clamp_ms 50000) ∧
        0 <= clamp_ms 50000 <= 10000 ∧
        (50000 < 0 → clamp_ms 50000 = 0) ∧ (10000 < 50000 → clamp_ms 50000 = 10000) ∧
        (0 <= 50000 <= 10000 → clamp_ms 50000 = 50000).
Proof.
  apply (C2_buzz_clamps B0 cfg0 p_buzz 50000 (FFin (17 # 10)) false peer w0).
  exists m_buzz. split; [reflexivity|].
  split; [split; [reflexivity|left; reflexivity]|].
  repeat split; try reflexivity. discriminate.
Defined.

(** C2 as worded fails: a duration of 1e999, read as infinity, is not
    clamped but raises [OverflowError] out of the handler, and a
    duration of 2.5 is applied as 2, the value [int()] gives, not as the
    input clamped. *)
Lemma C2_counterexample :
  handle_packet B2 cfg0 r_buzz_inf peer w0 = Raise OverflowError w0 ∧
  ∃ w', handle_packet B2 cfg0 r_buzz_frac peer w0 = Ok tt w' ∧
        active_until_ms (node w') - ticks_of (now w0) = 2 ∧
        ¬ (inject_Z (active_until_ms (node w') - ticks_of (now w0))
           == Qmax 0 (Qmin (inject_Z 10000) (5 # 2)))%Q.
Proof.
  split; [vm_compute; reflexivity|].
  exists (World (NodeState 65535 false 7) 5 "192.168.86.239" true [] []).
  split; [vm_compute; reflexivity|]. split; [reflexivity|].
  vm_compute. discriminate.
Qed.

(** The duty follows the rounding of the format.  For the binary64
    values nearest 0.6 and 0.5000076295109483 a format with the spacing
    of binary64 at that size gives 39321 and 32768 where the exact
    product gives 39320 and 32767; for the binary32 value 65537/131072
    a format with the spacing of binary32 gives 32768. *)
Example duty_follows_the_format :
  duty_of (rounding_builtins 37) (5404319552844595 # 9007199254740992) = 39321 ∧
  duty_of B0 (5404319552844595 # 9007199254740992) = 39320 ∧
  duty_of (rounding_builtins 37) (281479271743489 # 562949953421312) = 32768 ∧
  duty_of B0 (281479271743489 # 562949953421312) = 32767 ∧
  duty_of (rounding_builtins 8) (65537 # 131072) = 32768 ∧
  set_intensity (rounding_builtins 37)
    (FFin (5404319552844595 # 9007199254740992)) w0
  = Ok tt (World (NodeState 39321 false 0) 5 "192.168.86.239" true [] []).
Proof. repeat split; vm_compute; reflexivity. Qed.

(** The examples of the specification: -0.3 gives 0.0 and 1.7 gives 1.0,
    -5 gives 0 and 50000 gives 10000. *)
Example clamp_examples :
  clamp_intensity (FFin (-3 # 10)) = 0%Q ∧ clamp_intensity (FFin (17 # 10)) = 1%Q ∧
  clamp_ms (-5) = 0 ∧ clamp_ms 50000 = 10000 ∧
  handle_packet B0 cfg0 p_buzz peer w0
  = Ok tt (World (NodeState 65535 false 10005) 5 "192.168.86.239" true [] []) ∧
  handle_packet B0 cfg0 p_buzz_beep peer w0
  = Ok tt (World (NodeState 0 false 5) 125 "192.168.86.239" true [] []).
Proof. repeat split; vm_compute; reflexivity. Qed.

(** C3 as worded fails: after a [buzz] with intensity 0 the deadline is
    set and ahead of the clock while the output is zero. *)
Lemma C3_counterexample :
  ∃ w', loop_body B0 cfg0 (Datagram 0 p_buzz_zero peer) w0 = Ok tt w' ∧
        ¬ output_iff_deadline w'.
Proof.
  exists (World (NodeState 0 false 1005) 5 "192.168.86.239" true [] []).
  split; [vm_compute; reflexivity|].
  intros [_ H]. apply H; [|reflexivity]. split; [discriminate|].
  vm_compute. reflexivity.
Qed.

Lemma C3_output_needs_live_deadline_witness :
  (active_until_ms (node (World (NodeState 65535 false 10005) 25 "192.168.86.239" true [] [])) ≠ 0 →
   in_future (World (NodeState 65535 false 10005) 25 "192.168.86.239" true [] [])) ∧
  (output_needs_deadline (World (NodeState 65535 false 10005) 25 "192.168.86.239" true [] []) ∨
   zero_deadline_stored B0 cfg0 [Datagram 0 p_buzz peer; Timeout 20] w0).
Proof.
  apply (C3_output_needs_live_deadline B0 cfg0 [Datagram 0 p_buzz peer; Timeout 20] w0).
  - discriminate.
  - intros H. exfalso. apply H. reflexivity.
  - vm_compute. reflexivity.
Defined.

(** The deadline 0 is also the mark for no deadline: a [buzz] whose
    deadline wraps to tick 0 leaves the output on, and later iterations
    never turn it off. *)
Example zero_deadline_keeps_output_on :
  main_loop B0 cfg0 [Datagram 0 p_buzz peer; Timeout 50; Timeout 50000] w_wrap
  = Ok tt (World (NodeState 65535 false 0) (2 ^ 30 + 40050) "192.168.86.239" true [] []).
Proof. vm_compute. reflexivity. Qed.

(** A payload that decodes to a list has no [get]: the handler raises
    and the loop ends. *)
Example non_dict_payload_ends_loop :
  main_loop B0 cfg0 [Datagram 0 p_list peer; Timeout 50] w0
  = Raise AttributeError w0.
Proof. vm_compute. reflexivity. Qed.

Lemma C4_wrong_token_no_effect_witness :
  ∃ w', handle_packet B0 cfg0 p_ping_wrong_token peer w0 = Ok tt w' ∧
        node w' = node w0 ∧ sent w' = sent w0 ∧ now w' = now w0.
Proof.
  apply (C4_wrong_token_no_effect B0 cfg0 p_ping_wrong_token m_ping_wrong_token peer w0).
  - reflexivity.
  - vm_compute. discriminate.
Defined.


(** C6 as worded fails on the defaults: the code gives 192.168.86.255,
    the worded formula 255.255.255.239. *)
Lemma C6_counterexample :
  calc_broadcast DEFAULT_IP (MaskQuad DEFAULT_MASK) = inr (ipv4 192 168 86 255) ∧
  spec_broadcast DEFAULT_IP DEFAULT_MASK = ipv4 255 255 255 239 ∧
  calc_broadcast DEFAULT_IP (MaskQuad DEFAULT_MASK)
  ≠ inr (spec_broadcast DEFAULT_IP DEFAULT_MASK).
Proof.
  split; [vm_compute; reflexivity|]. split; [vm_compute; reflexivity|].
  vm_compute. discriminate.
Qed.

Lemma C6_broadcast_of_netmask_witness :
  calc_broadcast DEFAULT_IP (MaskQuad DEFAULT_MASK)
  = inr (Z.lor (Z.land DEFAULT_IP DEFAULT_MASK) (Z.lxor DEFAULT_MASK ALL_ONES)).
Proof.
  apply (C6_broadcast_of_netmask DEFAULT_IP DEFAULT_MASK).
  - vm_compute. split; discriminate.
  - exists 24. split; [lia|]. vm_compute. reflexivity.
Defined.

(** C7 as worded fails: the reply of a node that joined as a station
    says [STA], which is neither [station] nor [access-point]. *)
Lemma C7_counterexample :
  ∃ w' d, handle_packet B0 cfg0 p_ping peer w0 = Ok tt w' ∧
          sent w' = [(JDict d, peer)] ∧
          d !! "mode"%string = Some (JStr "STA") ∧
          ¬ (d !! "mode"%string = Some (JStr "station") ∨
             d !! "mode"%string = Some (JStr "access-point")).
Proof.
  exists (pinged cfg0 peer w0), (reply cfg0 w0).
  split; [vm_compute; reflexivity|]. split; [reflexivity|].
  split; [reflexivity|].
  intros [H|H]; vm_compute in H; discriminate H.
Qed.

Lemma C7_ping_reply_witness :
  ∃ w' d,
    handle_packet B0 cfg0 p_ping peer w0 = Ok tt w' ∧
    node w' = node w0 ∧ now w' = now w0 ∧
    sent w' = (if link_up w0 then sent w0 ++ [(JDict d, peer)] else sent w0) ∧
    d !! "id"%string = Some (JStr (DEVICE_ID cfg0)) ∧
    d !! "ip"%string = Some (JStr (ifconfig_ip w0)) ∧
    d !! "ok"%string = Some (JBool true) ∧
    (d !! "mode"%string = Some (JStr "STA") ∨ d !! "mode"%string = Some (JStr "AP")) ∧
    dom d = {[ "id"%string; "ip"%string; "mode"%string; "ok"%string ]}.
Proof.
  apply (C7_ping_reply B0 cfg0 p_ping peer w0).
  exists m_ping. split; [reflexivity|].
  split; [split; [reflexivity|left; reflexivity]|]. reflexivity.
Defined.


(** A negative wait is refused before anything is sent or collected. *)
Example discover_negative_wait :
  discover (MaskQuad DEFAULT_MASK) DEFAULT_IP (-1) 0 trace0 = Some (inl ValueError).
Proof. vm_compute. reflexivity. Qed.

(** Three replies from two addresses give a map of size two, the
    address that answered twice bound to its second reply. *)
Example discover_example :
  discover (MaskQuad DEFAULT_MASK) DEFAULT_IP (3 # 2) 0 trace0
  = Some (inr (ipv4 192 168 86 255,
               {[ "10.0.0.1"%string := "second"%string;
                  "10.0.0.2"%string := "other"%string ]})).
Proof. vm_compute. reflexivity. Qed.

(** C9 as worded fails: the handler of a [buzz] with [beep] does not
    return until the 120 ms pulse is over. *)
Lemma C9_counterexample :
  ¬ (∀ (B : builtins) (cfg : config) (payload : list Byte.byte) (ms : Z) (x : pyfloat)
       (src : addr) (w w' : world),
       buzz_command B cfg payload ms x true →
       handle_packet B cfg payload src w = Ok tt w' →
       now w' = now w).
Proof.
  intros H.
  specialize (H B0 cfg0 p_buzz_beep (-5) (FFin (-3 # 10)) peer w0
                (World (NodeState 0 false 5) 125 "192.168.86.239" true [] [])).
  assert (125 = 5) as Habs; [|discriminate Habs].
  apply H.
  - exists m_buzz_beep. split; [reflexivity|].
    split; [split; [reflexivity|left; reflexivity]|].
    repeat split; try reflexivity. discriminate.
  - vm_compute. reflexivity.
Qed.

Lemma C9_beep_keeps_state_and_blocks_witness :
  ∃ w', handle_packet B0 cfg0 p_buzz_beep peer w0 = Ok tt w' ∧
        duty (node w') = duty (node (buzzed B0 (-5) (FFin (-3 # 10)) false w0)) ∧
        active_until_ms (node w')
          = active_until_ms (node (buzzed B0 (-5) (FFin (-3 # 10)) false w0)) ∧
        buzzer (node w') = false ∧
        now w' = now w0 + 120.
Proof.
  apply (C9_beep_keeps_state_and_blocks B0 cfg0 p_buzz_beep (-5) (FFin (-3 # 10)) peer w0).
  exists m_buzz_beep. split; [reflexivity|].
  split; [split; [reflexivity|left; reflexivity]|].
  repeat split; try reflexivity. discriminate.
Defined.

Lemma C10_empty_target_is_no_filter_witness :
  handle_packet B2 cfg0 r_buzz_empty_target peer w0
  = handle_packet B2 cfg0 r_buzz_no_target peer w0 ∧
  (m_buzz_empty_target !! "token"%string = Some (JStr (TOKEN cfg0)) →
   (m_buzz_empty_target !! "cmd"%string = Some (JStr "ping") →
    handle_packet B2 cfg0 r_buzz_empty_target peer w0 = Ok tt (pinged cfg0 peer w0)) ∧
   (m_buzz_empty_target !! "cmd"%string = Some (JStr "stop") →
    handle_packet B2 cfg0 r_buzz_empty_target peer w0
    = Ok tt (with_node (fun s => NodeState 0 (buzzer s) 0) w0)) ∧
   (m_buzz_empty_target !! "cmd"%string = Some (JStr "buzz") →
    ∀ (ms : Z) (x : pyfloat),
      py_int B2 (default (JInt 1000) (m_buzz_empty_target !! "duration_ms"%string))
      = inr ms →
      py_float B2 (default (JFloat (FFin 1)) (m_buzz_empty_target !! "intensity"%string))
      = inr x →
      x ≠ FNaN →
      handle_packet B2 cfg0 r_buzz_empty_target peer w0
      = Ok tt (buzzed B2 ms x
                 (truthy (default JNull (m_buzz_empty_target !! "beep"%string))) w0))).
Proof.
  apply (C10_empty_target_is_no_filter B2 cfg0 r_buzz_empty_target r_buzz_no_target
           m_buzz_empty_target peer w0).
  - reflexivity.
  - reflexivity.
  - reflexivity.
Defined.

(** The [buzz] with the empty target is applied: duty of 0.5, deadline
    300 ms ahead, and the beep has taken its 120 ms. *)
Example empty_target_buzz_applied :
  handle_packet B2 cfg0 r_buzz_empty_target peer w0
  = Ok tt (World (NodeState 32767 false 305) 125 "192.168.86.239" true [] []).
Proof. vm_compute. reflexivity. Qed.

End Instances.

(** ** The further properties on concrete inputs *)

Section MoreInstances.
Import Fixtures.

Lemma stop_ends_vibration_witness :
  ∃ w', loop_body B1 cfg0 (Datagram 4 q_stop peer) w0 = Ok tt w' ∧
        duty (node w') = 0 ∧ active_until_ms (node w') = 0 ∧
        buzzer (node w') = buzzer (node w0) ∧
        sent w' = sent w0 ∧ now w' = now w0 + Z.of_N 4.
Proof.
  apply (stop_ends_vibration B1 cfg0 4%N q_stop peer w0).
  exists wire_stop. split; [reflexivity|].
  split; [split; [reflexivity|left; reflexivity]|reflexivity].
Defined.

Lemma foreign_target_ignored_witness :
  handle_packet B1 cfg0 q_stop_other peer w0 = Ok tt w0.
Proof.
  apply (foreign_target_ignored B1 cfg0 q_stop_other wire_stop_other (JStr "RHIP")
           peer w0).
  - reflexivity.
  - reflexivity.
  - reflexivity.
  - reflexivity.
  - discriminate.
Defined.

Lemma unknown_cmd_ignored_witness :
  handle_packet B1 cfg0 q_dance peer w0 = Ok tt w0.
Proof.
  apply (unknown_cmd_ignored B1 cfg0 q_dance m_dance peer w0).
  - reflexivity.
  - split; [reflexivity|left; reflexivity].
  - vm_compute. discriminate.
  - vm_compute. discriminate.
  - vm_compute. discriminate.
Defined.

Lemma duty_stays_in_range_witness :
  0 <= duty (node (final_world
                     (main_loop B0 cfg0 [Datagram 0 p_buzz peer; Timeout 20;
                                         Datagram 0 p_buzz_null peer] w0))) <= 65535.
Proof.
  apply (duty_stays_in_range B0 cfg0). cbn. lia.
Defined.

Lemma buzzer_never_left_on_witness :
  buzzer (node (final_world
                  (main_loop B0 cfg0 [Datagram 0 p_buzz_beep peer; Timeout 20] w0)))
  = false.
Proof.
  apply (buzzer_never_left_on B0 cfg0). reflexivity.
Defined.

Lemma auto_stop_after_duration_witness :
  ∃ w', main_loop B0 cfg0 (Datagram 0 p_buzz peer :: map Timeout [4000; 7000]%N) w0
        = Ok tt w' ∧
        now w' = now w0 + Z.of_N 0 + (if false then 120 else 0)
                 + total_wait [4000; 7000]%N ∧
        ((if false then 120 else 0) + total_wait [4000; 7000]%N < clamp_ms 50000 →
         duty (node w') = duty_of B0 (clamp_intensity (FFin (17 # 10))) ∧
         active_until_ms (node w')
           = ticks_add (ticks_of (now w0 + Z.of_N 0)) (clamp_ms 50000)) ∧
        (clamp_ms 50000 <= (if false then 120 else 0) + total_wait [4000; 7000]%N →
         duty (node w') = 0 ∧ active_until_ms (node w') = 0).
Proof.
  apply (auto_stop_after_duration B0 cfg0 0%N p_buzz peer 50000 (FFin (17 # 10)) false
           [4000; 7000]%N w0).
  - exists m_buzz. split; [reflexivity|].
    split; [split; [reflexivity|left; reflexivity]|].
    repeat split; try reflexivity. discriminate.
  - vm_compute. discriminate.
  - repeat constructor.
Defined.

Lemma load_cfg_falls_back_witness :
  startup_reads B2 (load_cfg B2 (Some r_cfg_wifi_only))
  = inr (5005, JStr "haptic01", JStr "change-me", JStr "Lab", JStr "secret").
Proof.
  apply (load_cfg_falls_back B2 (Some r_cfg_wifi_only) (JStr "Lab") (JStr "secret")).
  right. right. exists r_cfg_wifi_only, cfg_wifi_only.
  repeat split; reflexivity.
Defined.

Lemma config_without_wifi_keys_fails_startup_witness :
  startup_reads B2 (load_cfg B2 (Some r_cfg_id_only)) = inl KeyError.
Proof.
  apply (config_without_wifi_keys_fails_startup B2 r_cfg_id_only cfg_id_only
           (5005, JStr "RHIP", JStr "change-me")).
  - reflexivity.
  - reflexivity.
  - left. reflexivity.
Defined.

(** Without a file the built-in configuration is read in full. *)
Example load_cfg_without_file :
  startup_reads B2 (load_cfg B2 None)
  = inr (5005, JStr "haptic01", JStr "change-me", JStr "Deniz", JStr "13711353").
Proof. reflexivity. Qed.

Lemma non_object_config_fails_startup_witness :
  settings B1 (load_cfg B1 (Some q_hello)) = inl AttributeError.
Proof.
  apply (non_object_config_fails_startup B1 q_hello (JStr "hello")).
  - reflexivity.
  - intros d. discriminate.
Defined.

Lemma broadcast_is_top_of_network_witness :
  0 <= ipv4 192 168 86 255 <= ALL_ONES ∧
  Z.land (ipv4 192 168 86 255) DEFAULT_MASK = Z.land DEFAULT_IP DEFAULT_MASK ∧
  Z.lor (ipv4 192 168 86 255) DEFAULT_MASK = ALL_ONES ∧
  calc_broadcast (ipv4 192 168 86 255) (MaskQuad DEFAULT_MASK)
  = inr (ipv4 192 168 86 255).
Proof.
  apply (broadcast_is_top_of_network DEFAULT_IP DEFAULT_MASK (ipv4 192 168 86 255)).
  - vm_compute. split; discriminate.
  - exists 24. split; [lia|]. vm_compute. reflexivity.
  - vm_compute. reflexivity.
Defined.

Lemma mask_spellings_agree_witness :
  calc_broadcast DEFAULT_IP (MaskQuad (ip_int_from_prefix 24))
  = calc_broadcast DEFAULT_IP (MaskPrefix 24) ∧
  (0 < 24 < 32 →
   calc_broadcast DEFAULT_IP (MaskQuad (Z.lxor (ip_int_from_prefix 24) ALL_ONES))
   = calc_broadcast DEFAULT_IP (MaskPrefix 24)).
Proof.
  apply (mask_spellings_agree DEFAULT_IP 24). lia.
Defined.

Lemma exit_status_tells_empty_discovery_witness :
  (status (Run [(JDict (discover_ping DEFAULT_TOKEN),
                 (ipv4 192 168 86 255, DEFAULT_PORT), true)]
               [LNoBroadcastReplies (ipv4 192 168 86 255) DEFAULT_PORT] 1) = 0 ∨
   status (Run [(JDict (discover_ping DEFAULT_TOKEN),
                 (ipv4 192 168 86 255, DEFAULT_PORT), true)]
               [LNoBroadcastReplies (ipv4 192 168 86 255) DEFAULT_PORT] 1) = 1) ∧
  (status (Run [(JDict (discover_ping DEFAULT_TOKEN),
                 (ipv4 192 168 86 255, DEFAULT_PORT), true)]
               [LNoBroadcastReplies (ipv4 192 168 86 255) DEFAULT_PORT] 1) = 1 ↔
   ∃ wait, arg_cmd a_discover = SubBroadcastPing wait ∧
           Forall (fun o => o = RTimeout)
                  (window 0 wait [((1 # 2)%Q, RTimeout); (2%Q, RTimeout)])).
Proof.
  apply (exit_status_tells_empty_discovery a_discover RTimeout 0
           [((1 # 2)%Q, RTimeout); (2%Q, RTimeout)]).
  vm_compute. reflexivity.
Defined.

Lemma controller_buzz_drives_node_witness :
  (DEFAULT_IP, DEFAULT_PORT) = (arg_ip a_buzz, arg_port a_buzz) ∧ false = false ∧
  handle_packet B1 cfg0 q_buzz peer w0 = Ok tt (buzzed B1 2000 (FFin (8 # 10)) true w0).
Proof.
  apply (controller_buzz_drives_node B1 cfg0 a_buzz 2000 (FFin (8 # 10)) true RTimeout 0 []
           (Run [(JDict wire_buzz, (DEFAULT_IP, DEFAULT_PORT), false)]
                [LSentBuzz DEFAULT_IP DEFAULT_PORT 2000 (FFin (8 # 10)) true] 0)
           (JDict wire_buzz) (DEFAULT_IP, DEFAULT_PORT) false q_buzz peer w0).
  - reflexivity.
  - reflexivity.
  - left. reflexivity.
  - reflexivity.
  - reflexivity.
  - left. reflexivity.
  - discriminate.
Defined.

Lemma broadcast_buzz_reaches_every_node_witness :
  calc_broadcast (arg_ip a_broadcast_buzz) (arg_mask a_broadcast_buzz)
  = inr (fst (ipv4 192 168 86 255, DEFAULT_PORT)) ∧
  snd (ipv4 192 168 86 255, DEFAULT_PORT) = arg_port a_broadcast_buzz ∧ true = true ∧
  handle_packet B1 cfg0 q_broadcast_buzz peer w0
  = Ok tt (buzzed B1 1200 (FFin (7 # 10)) false w0).
Proof.
  apply (broadcast_buzz_reaches_every_node B1 cfg0 a_broadcast_buzz 1200 (FFin (7 # 10))
           false RTimeout 0 []
           (Run [(JDict wire_broadcast_buzz, (ipv4 192 168 86 255, DEFAULT_PORT), true)]
                [LBroadcastBuzz (ipv4 192 168 86 255) DEFAULT_PORT 1200 (FFin (7 # 10))
                                false] 0)
           (JDict wire_broadcast_buzz) (ipv4 192 168 86 255, DEFAULT_PORT) true
           q_broadcast_buzz peer w0).
  - reflexivity.
  - vm_compute. reflexivity.
  - left. reflexivity.
  - reflexivity.
  - reflexivity.
  - discriminate.
Defined.

Lemma controller_ping_is_answered_witness :
  handle_packet B1 cfg0 q_ping peer w0 = Ok tt (pinged cfg0 peer w0).
Proof.
  apply (controller_ping_is_answered B1 cfg0 a_ping RTimeout 0 []
           (Run [(JDict wire_ping, (DEFAULT_IP, DEFAULT_PORT), false)] [LNoReply] 0)
           (JDict wire_ping) (DEFAULT_IP, DEFAULT_PORT) false q_ping peer w0).
  - left. split; [reflexivity|]. right. right. reflexivity.
  - reflexivity.
  - left. reflexivity.
  - reflexivity.
  - reflexivity.
Defined.

Lemma controller_stop_stops_node_witness :
  handle_packet B1 cfg0 q_stop peer w0 = Ok tt (stopped w0).
Proof.
  apply (controller_stop_stops_node B1 cfg0 a_stop RTimeout 0 []
           (Run [(JDict wire_stop, (DEFAULT_IP, DEFAULT_PORT), false)]
                [LSentStop DEFAULT_IP DEFAULT_PORT] 0)
           (JDict wire_stop) (DEFAULT_IP, DEFAULT_PORT) false q_stop peer w0).
  - reflexivity.
  - reflexivity.
  - left. reflexivity.
  - reflexivity.
  - reflexivity.
  - left. reflexivity.
Defined.

Lemma controller_command_for_other_node_is_ignored_witness :
  handle_packet B1 cfg0 q_stop_other peer w0 = Ok tt w0.
Proof.
  apply (controller_command_for_other_node_is_ignored B1 cfg0 a_stop_other "RHIP"
           RTimeout 0 []
           (Run [(JDict wire_stop_other, (DEFAULT_IP, DEFAULT_PORT), false)]
                [LSentStop DEFAULT_IP DEFAULT_PORT] 0)
           (JDict wire_stop_other) (DEFAULT_IP, DEFAULT_PORT) false q_stop_other peer w0).
  - right. left. reflexivity.
  - reflexivity.
  - discriminate.
  - discriminate.
  - reflexivity.
  - left. reflexivity.
  - reflexivity.
  - reflexivity.
Defined.

End MoreInstances.
